(** * telegram-max-bridge: a shallow embedding of the relay and its properties

    The bridge relays messages between Max (through GREEN-API) and Telegram.
    The Python sources are embedded module by module:

    - [Py]                      the Python values and string helpers the code relies on
    - [Config]                  app/config.py
    - [TelegramClient]          app/telegram_client.py
    - [GreenApiClient]          app/green_api_client.py
    - [WebhookHandler]          app/handlers.py
    - [TelegramWebhookHandler]  app/telegram_handlers.py
    - [Main]                    app/main.py

    Effects (the temporary files, the calls made to the two platforms) are
    threaded through a state-and-exception monad; what the outside world answers
    (HTTP downloads, the Bot API, GREEN-API) is an explicit environment [Env].
    Logging is left out; what a log line evaluates is kept where it can raise
    (the slice of a text or of a URL, the [idMessage] of an answer). *)

From Stdlib Require Import String Ascii List ZArith Bool Lia DecimalString.
Import ListNotations.
Open Scope string_scope.
Set Warnings "-register-all".

(* ================================================================= *)
(** * Python values *)

Module Py.

(** The line feed written [\n] in the Python sources. *)
Definition LF : string := String "010"%char EmptyString.

(** A decoded JSON document, as [request.json()] returns it.  Objects are
    association lists searched from the front.  Numbers are the integers;
    non-integer numbers are outside the model. *)
Inductive value : Type :=
| JNull
| JBool (b : bool)
| JInt (z : Z)
| JStr (s : string)
| JArr (l : list value)
| JObj (fields : list (string * value)).

(** [bool(v)]: the truth value Python gives a JSON value. *)
Definition truthy (v : value) : bool :=
  match v with
  | JNull => false
  | JBool b => b
  | JInt z => negb (z =? 0)%Z
  | JStr s => negb (s =? "")
  | JArr l => match l with [] => false | _ => true end
  | JObj f => match f with [] => false | _ => true end
  end.

(** [a or b] *)
Definition or_ (a b : value) : value := if truthy a then a else b.

(** [v == s] for a [str] constant [s]. *)
Definition eq_str (v : value) (s : string) : bool :=
  match v with
  | JStr t => t =? s
  | _ => false
  end.

(** [v in l] for a list [l] of [str] constants. *)
Definition in_strs (v : value) (l : list string) : bool :=
  existsb (eq_str v) l.

(** [isinstance(v, dict)] *)
Definition is_dict (v : value) : bool :=
  match v with JObj _ => true | _ => false end.

(** [type(v).__name__] *)
Definition type_name (v : value) : string :=
  match v with
  | JNull => "NoneType"
  | JBool _ => "bool"
  | JInt _ => "int"
  | JStr _ => "str"
  | JArr _ => "list"
  | JObj _ => "dict"
  end.

Fixpoint assoc {A : Type} (k : string) (l : list (string * A)) : option A :=
  match l with
  | [] => None
  | (k', v) :: l' => if k' =? k then Some v else assoc k l'
  end.

(** Truth value of an [Optional[str]]. *)
Definition truthy_opt (o : option string) : bool :=
  match o with
  | Some s => negb (s =? "")
  | None => false
  end.

(** [o or d] for an [Optional[str]] and a [str] default. *)
Definition or_default (o : option string) (d : string) : string :=
  if truthy_opt o then match o with Some s => s | None => d end else d.

(** [s.startswith(p)] *)
Definition startswith (p s : string) : bool := String.prefix p s.

(** [s.replace(old, new)] for a non-empty [old]: the occurrences are found
    from the left and do not overlap.  [skip] counts the characters of a
    match that are still to be dropped. *)
Fixpoint replace_from (old new : string) (skip : nat) (s : string) : string :=
  match s with
  | EmptyString => EmptyString
  | String c s' =>
      match skip with
      | S k => replace_from old new k s'
      | O =>
          if String.prefix old s
          then new ++ replace_from old new (String.length old - 1) s'
          else String c (replace_from old new 0 s')
      end
  end.

Definition replace (old new s : string) : string := replace_from old new 0 s.

(** [s[:n]] *)
Definition take (n : nat) (s : string) : string := substring 0 n s.

(** [str(z)] for an [int]. *)
Definition str_of_int (z : Z) : string := NilZero.string_of_int (Z.to_int z).

Definition lower_ascii (c : ascii) : ascii :=
  let n := nat_of_ascii c in
  if (65 <=? n)%nat && (n <=? 90)%nat then ascii_of_nat (n + 32) else c.

(** [s.lower()] on ASCII letters. *)
Fixpoint lower (s : string) : string :=
  match s with
  | EmptyString => EmptyString
  | String c s' => String (lower_ascii c) (lower s')
  end.

(** [sep.join(l)] *)
Fixpoint join (sep : string) (l : list string) : string :=
  match l with
  | [] => ""
  | [x] => x
  | x :: l' => x ++ sep ++ join sep l'
  end.

(** Position of the last occurrence of [c] in [s], as [s.rfind(c)]. *)
Fixpoint rfind_from (c : ascii) (i : nat) (s : string) (acc : option nat) : option nat :=
  match s with
  | EmptyString => acc
  | String d s' =>
      rfind_from c (S i) s' (if Ascii.eqb d c then Some i else acc)
  end.

Definition rfind (c : ascii) (s : string) : option nat := rfind_from c 0 s None.

(** [all(c == '.' for c in s[i:j])] *)
Fixpoint all_dots (s : string) (i len : nat) : bool :=
  match len with
  | O => true
  | S len' =>
      match String.get i s with
      | Some c => Ascii.eqb c "."%char && all_dots s (S i) len'
      | None => true
      end
  end.

(** [os.path.splitext(p)[1]] on a POSIX path: the extension starts at the
    last dot of the last path component, leading dots of that component
    apart. *)
Definition splitext_ext (p : string) : string :=
  let start := match rfind "/"%char p with Some i => S i | None => O end in
  match rfind "."%char p with
  | Some d =>
      if (start <=? d)%nat && negb (all_dots p start (d - start))
      then substring d (String.length p - d) p
      else ""
  | None => ""
  end.

End Py.

Import Py.

(* ================================================================= *)
(** * Exceptions, the world and the monad of effects *)

(** The exception classes the code raises or catches.  All of them derive
    from [Exception]; [HTTPException] carries its status code. *)
Inductive exn_class : Type :=
| AttributeError
| TypeError
| ValueError
| IndexError
| OSError
| TelegramAPIError
| HTTPException (status_code : Z)
| OtherError.

(** An exception with the text [str(e)] gives for it. *)
Inductive exn : Type :=
| Exn (cls : exn_class) (msg : string).

Definition exn_cls (e : exn) : exn_class := let (c, _) := e in c.
Definition exn_str (e : exn) : string := let (_, m) := e in m.

(** [isinstance(e, TelegramAPIError)] *)
Definition is_TelegramAPIError (e : exn) : bool :=
  match exn_cls e with TelegramAPIError => true | _ => false end.

(** A call that leaves the process, with its arguments. *)
Inductive call : Type :=
| HttpGet (url : value)
| BotSendMessage (chat_id : string) (text : value) (parse_mode : string)
| BotSendPhoto (chat_id : string) (path : string) (caption : value) (parse_mode : string)
| BotSendVideo (chat_id : string) (path : string) (caption : value) (parse_mode : string)
| BotSendDocument (chat_id : string) (path : string) (filename : value)
                  (caption : value) (parse_mode : string)
| BotGetFile (file_id : string)
| MaxPost (url : string) (payload : list (string * string)).

(** What changes while a request is handled: the temporary files that exist
    (name and content), the calls made so far, oldest first, and the number
    of temporary files created so far. *)
Record World : Type := mkWorld {
  files : list (string * string);
  calls : list call;
  tmp_count : nat
}.

(** The part of aiogram's types the handlers read.  [file_name] is absent
    for a photo size, a video and a voice message as far as the code goes. *)
Module Aiogram.

Record User : Type := mkUser {
  full_name : string;
  username : option string
}.

Record File : Type := mkFile {
  file_id : string;
  file_name : option string
}.

Record Message : Type := mkMessage {
  chat_id : Z;
  from_user : option User;
  text : option string;
  caption : option string;
  photo : option (list File);
  video : option File;
  document : option File;
  voice : option File;
  audio : option File
}.

(** An update carries a message or something else the dispatcher has no
    handler for. *)
Record Update : Type := mkUpdate {
  message : option Message
}.

End Aiogram.

Inductive get_outcome : Type :=
| GetRaises (e : exn)
| GetResponse (status : Z) (body : exn + string).

Inductive post_outcome : Type :=
| PostRaises (e : exn)
| PostResponse (status : Z) (json : exn + value).

(** What the outside world answers.  [py_str] is [str(v)] on the values that
    are not strings; [tmp_name n suffix] is the name [tempfile] picks for the
    [n]-th temporary file; [parse_update] builds
    aiogram's [Update] from the decoded update, or raises. *)
Record Env : Type := mkEnv {
  py_str : value -> string;
  http_get : value -> get_outcome;
  tmp_name : nat -> string -> string;
  bot_api : call -> option exn;
  bot_get_file : string -> exn + string;
  green_post : string -> list (string * string) -> post_outcome;
  parse_update : value -> exn + Aiogram.Update
}.

Inductive outcome (A : Type) : Type :=
| Ret (a : A)
| Raise (e : exn).
Arguments Ret {A} a.
Arguments Raise {A} e.

Definition M (A : Type) : Type := World -> outcome A * World.

Definition ret {A} (a : A) : M A := fun w => (Ret a, w).
Definition raise {A} (e : exn) : M A := fun w => (Raise e, w).

Definition bind {A B} (m : M A) (k : A -> M B) : M B :=
  fun w =>
    match m w with
    | (Ret a, w') => k a w'
    | (Raise e, w') => (Raise e, w')
    end.

Notation "x <- m ;; k" := (bind m (fun x => k))
  (at level 61, m at next level, right associativity).
Notation "m ;;; k" := (bind m (fun _ => k))
  (at level 61, right associativity).

(** [try: m  except C as e: handler e], where [catches e] says whether [e]
    is an instance of [C].  What [m] did to the world before raising stays
    done. *)
Definition try_except {A} (m : M A) (catches : exn -> bool) (handler : exn -> M A) : M A :=
  fun w =>
    match m w with
    | (Ret a, w') => (Ret a, w')
    | (Raise e, w') => if catches e then handler e w' else (Raise e, w')
    end.

(** [except Exception]: every modelled class derives from [Exception]. *)
Definition any_Exception (e : exn) : bool := true.

Definition record_call (c : call) : M unit :=
  fun w => (Ret tt, mkWorld (files w) (calls w ++ [c])%list (tmp_count w)).

Definition lift_result {A} (r : exn + A) : M A :=
  match r with
  | inl e => raise e
  | inr a => ret a
  end.

(** [v.get(key, default)]: only a [dict] has the method. *)
Definition get (v : value) (key : string) (default : value) : M value :=
  match v with
  | JObj f => ret (match assoc key f with Some x => x | None => default end)
  | _ => raise (Exn AttributeError
                  ("'" ++ type_name v ++ "' object has no attribute 'get'"))
  end.

(** [v.replace(old, new)]: only a [str] has the method. *)
Definition replace_method (v : value) (old new : string) : M value :=
  match v with
  | JStr s => ret (JStr (replace old new s))
  | _ => raise (Exn AttributeError
                  ("'" ++ type_name v ++ "' object has no attribute 'replace'"))
  end.

(** [v[:n]], evaluated where the code logs the head of a text or of a URL:
    a [str] and a [list] can be sliced, the other values raise. *)
Definition slice_check (v : value) : M unit :=
  match v with
  | JStr _ | JArr _ => ret tt
  | JObj _ => raise (Exn TypeError "unhashable type: 'slice'")
  | _ => raise (Exn TypeError ("'" ++ type_name v ++ "' object is not subscriptable"))
  end.

(** [f"{v}"] *)
Definition fmt (env : Env) (v : value) : string :=
  match v with
  | JStr s => s
  | _ => py_str env v
  end.

(** An [Optional[str]] as a value. *)
Definition of_opt (o : option string) : value :=
  match o with Some s => JStr s | None => JNull end.

(* ================================================================= *)
(** * app/config.py *)

Module Config.

Record Settings : Type := mkSettings {
  max_instance_id : string;
  max_api_token : string;
  telegram_bot_token : string;
  telegram_channel_id : string;
  max_chat_id : option string;
  telegram_webhook_url : option string;
  telegram_webhook_secret : option string;
  telegram_chat_id : option string;
  max_target_chat_id : string;
  enable_max_to_telegram : bool;
  enable_telegram_to_max : bool;
  webhook_port : Z;
  webhook_host : string;
  log_level : string;
  webhook_secret : option string
}.

Definition both_directions_msg : string :=
  "Нельзя включить оба направления одновременно. "
  ++ "Это приведёт к бесконечному дублированию сообщений. "
  ++ "Выберите одно направление: "
  ++ "ENABLE_MAX_TO_TELEGRAM=true или ENABLE_TELEGRAM_TO_MAX=true".

Definition no_direction_msg : string :=
  "Необходимо включить хотя бы одно направление синхронизации: "
  ++ "ENABLE_MAX_TO_TELEGRAM=true или ENABLE_TELEGRAM_TO_MAX=true".

(** [all(required)] for a list of [str]. *)
Definition all_nonempty (required : list string) : bool :=
  forallb (fun s => negb (s =? "")) required.

Definition validate_settings (self : Settings) : exn + bool :=
  if enable_max_to_telegram self && enable_telegram_to_max self
  then inl (Exn ValueError both_directions_msg)
  else if negb (enable_max_to_telegram self) && negb (enable_telegram_to_max self)
  then inl (Exn ValueError no_direction_msg)
  else
    let required :=
      [max_instance_id self; max_api_token self; telegram_bot_token self] in
    let required :=
      if enable_max_to_telegram self
      then (required ++ [telegram_channel_id self])%list else required in
    let required :=
      if enable_telegram_to_max self
      then (required ++ [max_target_chat_id self])%list else required in
    inr (all_nonempty required).

End Config.

(* ================================================================= *)
(** * Temporary files *)

Definition file_exists (name : string) (w : World) : bool :=
  existsb (fun f => fst f =? name) (files w).

(** [tempfile.NamedTemporaryFile(delete=False, suffix=suffix)]: the file
    exists, empty, from this point on. *)
Definition create_tmp (env : Env) (suffix : string) : M string :=
  fun w =>
    let name := tmp_name env (tmp_count w) suffix in
    (Ret name,
     mkWorld ((name, "") :: filter (fun f => negb (fst f =? name)) (files w))
             (calls w) (S (tmp_count w))).

(** [tmp.write(content)] *)
Definition write_file (name content : string) : M unit :=
  fun w =>
    (Ret tt,
     mkWorld (map (fun f => if fst f =? name then (name, content) else f) (files w))
             (calls w) (tmp_count w)).

(** [os.unlink(path)] *)
Definition unlink (path : string) : M unit :=
  fun w =>
    if file_exists path w
    then (Ret tt,
          mkWorld (filter (fun f => negb (fst f =? path)) (files w))
                  (calls w) (tmp_count w))
    else (Raise (Exn OSError
                   ("[Errno 2] No such file or directory: '" ++ path ++ "'")), w).

(** [os.path.splitext(url)[1]]: a path has to be a [str]. *)
Definition splitext_ext_of (url : value) : M string :=
  match url with
  | JStr s => ret (splitext_ext s)
  | _ => raise (Exn TypeError
                  ("expected str, bytes or os.PathLike object, not "
                   ++ type_name url))
  end.

(* ================================================================= *)
(** * app/telegram_client.py *)

Module TelegramClient.

Record t : Type := mkClient {
  token : string;
  channel_id : string
}.

Definition init (settings : Config.Settings) : t :=
  {| token := Config.telegram_bot_token settings;
     channel_id := Config.telegram_channel_id settings |}.

(** A call of a [self.bot] method: it is made, then the Bot API answers or
    raises. *)
Definition bot_call (env : Env) (c : call) : M unit :=
  record_call c ;;;
  match bot_api env c with
  | Some e => raise e
  | None => ret tt
  end.

Definition _format_message (env : Env) (text sender_name sender_phone : value) : value :=
  if truthy sender_name
  then
    let header := "ðŸ‘¤ <b>" ++ fmt env sender_name ++ "</b>" in
    JStr (header ++ LF ++ LF ++ fmt env text)
  else text.

Definition _download_file (env : Env) (url : value) : M (option string) :=
  try_except
    (record_call (HttpGet url) ;;;
     match http_get env url with
     | GetRaises e => raise e
     | GetResponse status body =>
         if (status =? 200)%Z
         then
           suffix <- splitext_ext_of url ;;
           name <- create_tmp env suffix ;;
           content <- lift_result body ;;
           write_file name content ;;;
           ret (Some name)
         else ret None
     end)
    any_Exception
    (fun _ => ret None).

Definition send_text_message (env : Env) (self : t)
    (text sender_name sender_phone : value) : M bool :=
  try_except
    (let formatted_message := _format_message env text sender_name sender_phone in
     bot_call env (BotSendMessage (channel_id self) formatted_message "HTML") ;;;
     slice_check text ;;;
     ret true)
    is_TelegramAPIError
    (fun _ => ret false).

Definition send_photo (env : Env) (self : t)
    (photo_url caption sender_name sender_phone : value) : M bool :=
  try_except
    (let formatted_caption :=
       _format_message env (or_ caption (JStr "ðŸ“· Photo")) sender_name sender_phone in
     temp_file <- _download_file env photo_url ;;
     if truthy_opt temp_file
     then
       let path := or_default temp_file "" in
       bot_call env (BotSendPhoto (channel_id self) path formatted_caption "HTML") ;;;
       unlink path ;;;
       slice_check photo_url ;;;
       ret true
     else ret false)
    is_TelegramAPIError
    (fun _ => ret false).

Definition send_document (env : Env) (self : t)
    (document_url filename caption sender_name sender_phone : value) : M bool :=
  try_except
    (let formatted_caption :=
       _format_message env
         (or_ caption (JStr ("ðŸ“„ " ++ fmt env (or_ filename (JStr "Document")))))
         sender_name sender_phone in
     temp_file <- _download_file env document_url ;;
     if truthy_opt temp_file
     then
       let path := or_default temp_file "" in
       bot_call env
         (BotSendDocument (channel_id self) path filename formatted_caption "HTML") ;;;
       unlink path ;;;
       ret true
     else ret false)
    is_TelegramAPIError
    (fun _ => ret false).

Definition send_video (env : Env) (self : t)
    (video_url caption sender_name sender_phone : value) : M bool :=
  try_except
    (let formatted_caption :=
       _format_message env (or_ caption (JStr "ðŸŽ¥ Video")) sender_name sender_phone in
     temp_file <- _download_file env video_url ;;
     if truthy_opt temp_file
     then
       let path := or_default temp_file "" in
       bot_call env (BotSendVideo (channel_id self) path formatted_caption "HTML") ;;;
       unlink path ;;;
       slice_check video_url ;;;
       ret true
     else ret false)
    is_TelegramAPIError
    (fun _ => ret false).

End TelegramClient.

(* ================================================================= *)
(** * app/green_api_client.py *)

Module GreenApiClient.

Record t : Type := mkClient {
  instance_id : string;
  api_token : string;
  base_url : string
}.

Definition init (settings : Config.Settings) : t :=
  let instance_id := Config.max_instance_id settings in
  let server_id := take 4 instance_id in
  {| instance_id := instance_id;
     api_token := Config.max_api_token settings;
     base_url := "https://" ++ server_id ++ ".api.green-api.com/v3/waInstance"
                 ++ instance_id |}.

Definition _format_chat_id (chat_id : string) : string :=
  replace "@g.us" "" (replace "@c.us" "" chat_id).

Definition _format_message (text : string)
    (sender_name sender_username : option string) : string :=
  let sender_info : list string := [] in
  let sender_info :=
    if truthy_opt sender_name
    then List.app sender_info ["👤 " ++ or_default sender_name ""]
    else sender_info in
  let sender_info :=
    if truthy_opt sender_username
    then List.app sender_info ["@" ++ or_default sender_username ""]
    else sender_info in
  match sender_info with
  | _ :: _ =>
      let header := join " | " sender_info in
      "📨 *From Telegram:* " ++ header ++ LF ++ LF ++ text
  | [] => text
  end.

(** The POST of a JSON payload and the reading of the answer, shared by
    the two senders: [True] on status 200 with a JSON object as body,
    [False] on another status. *)
Definition post (env : Env) (url : string) (payload : list (string * string)) : M bool :=
  record_call (MaxPost url payload) ;;;
  match green_post env url payload with
  | PostRaises e => raise e
  | PostResponse status json =>
      if (status =? 200)%Z
      then
        result <- lift_result json ;;
        _ <- get result "idMessage" JNull ;;
        ret true
      else ret false
  end.

Definition send_text_message (env : Env) (self : t) (chat_id text : string)
    (sender_name sender_username : option string) : M bool :=
  try_except
    (let formatted_chat_id := _format_chat_id chat_id in
     let formatted_message := _format_message text sender_name sender_username in
     let url := base_url self ++ "/sendMessage/" ++ api_token self in
     let payload := [("chatId", formatted_chat_id); ("message", formatted_message)] in
     post env url payload)
    any_Exception
    (fun _ => ret false).

Definition send_file_by_url (env : Env) (self : t) (chat_id file_url filename : string)
    (caption sender_name sender_username : option string) : M bool :=
  try_except
    (let formatted_chat_id := _format_chat_id chat_id in
     let formatted_caption :=
       _format_message (or_default caption ("📎 " ++ filename))
                       sender_name sender_username in
     let url := base_url self ++ "/sendFileByUrl/" ++ api_token self in
     let payload :=
       [("chatId", formatted_chat_id); ("urlFile", file_url);
        ("fileName", filename); ("caption", formatted_caption)] in
     post env url payload)
    any_Exception
    (fun _ => ret false).

Definition send_photo (env : Env) (self : t) (chat_id photo_url : string)
    (caption sender_name sender_username : option string) : M bool :=
  send_file_by_url env self chat_id photo_url "photo.jpg"
    (Some (or_default caption "📷 Photo")) sender_name sender_username.

Definition send_video (env : Env) (self : t) (chat_id video_url : string)
    (caption sender_name sender_username : option string) : M bool :=
  send_file_by_url env self chat_id video_url "video.mp4"
    (Some (or_default caption "🎥 Video")) sender_name sender_username.

Definition send_document (env : Env) (self : t) (chat_id document_url filename : string)
    (caption sender_name sender_username : option string) : M bool :=
  send_file_by_url env self chat_id document_url filename
    (Some (or_default caption ("📄 " ++ filename))) sender_name sender_username.

End GreenApiClient.

(* ================================================================= *)
(** * app/handlers.py *)

(** [a or b], where [b] is evaluated only when [a] is false. *)
Definition or_else (a : value) (b : M value) : M value :=
  if truthy a then ret a else b.

(** The dictionaries the handlers answer with. *)
Definition status_ignored (reason : string) : value :=
  JObj [("status", JStr "ignored"); ("reason", JStr reason)].
Definition status_unsupported (type_message : value) : value :=
  JObj [("status", JStr "unsupported"); ("type", type_message)].
Definition status_success : value :=
  JObj [("status", JStr "success")].
Definition status_error (e : exn) : value :=
  JObj [("status", JStr "error"); ("message", JStr (exn_str e))].

(** [result["status"]], when the result is a dictionary with that key. *)
Definition status_of (result : value) : option value :=
  match result with
  | JObj f => assoc "status" f
  | _ => None
  end.

Module WebhookHandler.

Record t : Type := mkHandler {
  target_chat_id : option string
}.

Definition init (settings : Config.Settings) : t :=
  {| target_chat_id := Config.max_chat_id settings |}.

Definition should_process_message (self : t) (chat_id : value) : bool :=
  if negb (truthy_opt (target_chat_id self))
  then true
  else eq_str chat_id (or_default (target_chat_id self) "").

Definition allowed_webhook_types : list string :=
  ["incomingMessageReceived"; "incomingCall";
   "outgoingMessageReceived"; "outgoingAPIMessageReceived"].

Section Handlers.
Variable env : Env.
Variable telegram_client : TelegramClient.t.

Definition _handle_text_message (message_data sender_name sender_phone : value)
  : M unit :=
  d <- get message_data "textMessageData" (JObj []) ;;
  text <- get d "textMessage" (JStr "") ;;
  if truthy text
  then TelegramClient.send_text_message env telegram_client
         text sender_name sender_phone ;;; ret tt
  else ret tt.

Definition _handle_extended_text_message
    (message_data sender_name sender_phone : value) : M unit :=
  d <- get message_data "extendedTextMessageData" (JObj []) ;;
  text <- get d "text" (JStr "") ;;
  if truthy text
  then TelegramClient.send_text_message env telegram_client
         text sender_name sender_phone ;;; ret tt
  else ret tt.

Definition _handle_image_message (message_data sender_name sender_phone : value)
  : M unit :=
  f <- get message_data "fileMessageData" JNull ;;
  image_data <- or_else f (get message_data "downloadUrl" JNull) ;;
  p <- (if is_dict image_data
        then
          image_url <- get image_data "downloadUrl" JNull ;;
          caption <- get message_data "caption" JNull ;;
          ret (image_url, caption)
        else ret (image_data, JNull)) ;;
  let (image_url, caption) := p : value * value in
  if truthy image_url
  then TelegramClient.send_photo env telegram_client
         image_url caption sender_name sender_phone ;;; ret tt
  else ret tt.

Definition _handle_video_message (message_data sender_name sender_phone : value)
  : M unit :=
  f <- get message_data "fileMessageData" JNull ;;
  video_data <- or_else f (get message_data "downloadUrl" JNull) ;;
  p <- (if is_dict video_data
        then
          video_url <- get video_data "downloadUrl" JNull ;;
          caption <- get message_data "caption" JNull ;;
          ret (video_url, caption)
        else ret (video_data, JNull)) ;;
  let (video_url, caption) := p : value * value in
  if truthy video_url
  then TelegramClient.send_video env telegram_client
         video_url caption sender_name sender_phone ;;; ret tt
  else ret tt.

Definition _handle_document_message (message_data sender_name sender_phone : value)
  : M unit :=
  f <- get message_data "fileMessageData" JNull ;;
  let doc_data := or_ f (JObj []) in
  document_url <- get doc_data "downloadUrl" JNull ;;
  n <- get doc_data "fileName" JNull ;;
  let filename := or_ n (JStr "document") in
  caption <- get message_data "caption" JNull ;;
  if truthy document_url
  then TelegramClient.send_document env telegram_client
         document_url filename caption sender_name sender_phone ;;; ret tt
  else ret tt.

Definition _handle_audio_message (message_data sender_name sender_phone : value)
  : M unit :=
  f <- get message_data "fileMessageData" JNull ;;
  let audio_data := or_ f (JObj []) in
  audio_url <- get audio_data "downloadUrl" JNull ;;
  n <- get audio_data "fileName" JNull ;;
  let filename := or_ n (JStr "audio.mp3") in
  if truthy audio_url
  then TelegramClient.send_document env telegram_client
         audio_url filename (JStr "ðŸŽµ Audio") sender_name sender_phone ;;; ret tt
  else ret tt.

Definition _handle_voice_message (message_data sender_name sender_phone : value)
  : M unit :=
  f <- get message_data "fileMessageData" JNull ;;
  let voice_data := or_ f (JObj []) in
  voice_url <- get voice_data "downloadUrl" JNull ;;
  n <- get voice_data "fileName" JNull ;;
  let filename := or_ n (JStr "voice.ogg") in
  if truthy voice_url
  then TelegramClient.send_document env telegram_client
         voice_url filename (JStr "ðŸŽ¤ Voice message")
         sender_name sender_phone ;;; ret tt
  else ret tt.

(** The chain of comparisons on [typeMessage]. *)
Definition process_by_type
    (type_message message_data sender_name sender_phone : value) : M value :=
  if eq_str type_message "textMessage" then
    _handle_text_message message_data sender_name sender_phone ;;;
    ret status_success
  else if eq_str type_message "extendedTextMessage" then
    _handle_extended_text_message message_data sender_name sender_phone ;;;
    ret status_success
  else if eq_str type_message "imageMessage" then
    _handle_image_message message_data sender_name sender_phone ;;;
    ret status_success
  else if eq_str type_message "videoMessage" then
    _handle_video_message message_data sender_name sender_phone ;;;
    ret status_success
  else if eq_str type_message "documentMessage" then
    _handle_document_message message_data sender_name sender_phone ;;;
    ret status_success
  else if eq_str type_message "audioMessage" then
    _handle_audio_message message_data sender_name sender_phone ;;;
    ret status_success
  else if eq_str type_message "voiceMessage" then
    _handle_voice_message message_data sender_name sender_phone ;;;
    ret status_success
  else ret (status_unsupported type_message).

Definition handle_incoming_message (self : t) (payload : value) : M value :=
  try_except
    (webhook_type <- get payload "typeWebhook" JNull ;;
     if negb (in_strs webhook_type allowed_webhook_types)
     then ret (status_ignored "not_a_message")
     else
       message_data <- get payload "messageData" (JObj []) ;;
       sender_data <- get payload "senderData" (JObj []) ;;
       instance_data <- get payload "instanceData" (JObj []) ;;
       c <- get sender_data "chatId" JNull ;;
       chat_id <- or_else c (get sender_data "sender" JNull) ;;
       if negb (should_process_message self chat_id)
       then ret (status_ignored "chat_filter")
       else
         n <- get sender_data "senderName" JNull ;;
         sender_name <- or_else n (get sender_data "name" JNull) ;;
         s <- get sender_data "sender" (JStr "") ;;
         sender_phone <- replace_method s "@c.us" "" ;;
         type_message <- get message_data "typeMessage" JNull ;;
         process_by_type type_message message_data sender_name sender_phone)
    any_Exception
    (fun e => ret (status_error e)).

End Handlers.

End WebhookHandler.

(* ================================================================= *)
(** * app/telegram_handlers.py *)

Module TelegramWebhookHandler.
Import Aiogram.

Record t : Type := mkHandler {
  bot_token : string;
  target_chat_id : option string;
  max_target_chat : string
}.

Definition init (bot : TelegramClient.t) (settings : Config.Settings) : t :=
  {| bot_token := TelegramClient.token bot;
     target_chat_id := Config.telegram_chat_id settings;
     max_target_chat := Config.max_target_chat_id settings |}.

Definition should_process_message (self : t) (chat_id : Z) : bool :=
  if negb (truthy_opt (target_chat_id self))
  then true
  else str_of_int chat_id =? or_default (target_chat_id self) "".

Definition _get_sender_info (message : Message) : option string * option string :=
  match from_user message with
  | None => (None, None)
  | Some sender => (Some (full_name sender), username sender)
  end.

(** [o.file_id] and the like read an attribute of [o], which has to be
    there. *)
Definition attr_of (o : option File) : M File :=
  match o with
  | Some f => ret f
  | None => raise (Exn AttributeError "'NoneType' object has no attribute 'file_id'")
  end.

(** [message.photo[-1]] *)
Definition last_photo (o : option (list File)) : M File :=
  match o with
  | Some l =>
      match rev l with
      | p :: _ => ret p
      | [] => raise (Exn IndexError "list index out of range")
      end
  | None => raise (Exn TypeError "'NoneType' object is not subscriptable")
  end.

Section Handlers.
Variable env : Env.
Variable green_api_client : GreenApiClient.t.
Variable self : t.

(** [await self.bot.get_file(file_id)], then the URL built from
    [file.file_path]. *)
Definition get_file_url (file_id : string) : M string :=
  record_call (BotGetFile file_id) ;;;
  file_path <- lift_result (bot_get_file env file_id) ;;
  ret ("https://api.telegram.org/file/bot" ++ bot_token self ++ "/" ++ file_path).

Definition _handle_text_message (message : Message) : M unit :=
  try_except
    (if negb (should_process_message self (chat_id message))
     then ret tt
     else
       let (sender_name, sender_username) := _get_sender_info message in
       let text := or_default (text message) "" in
       GreenApiClient.send_text_message env green_api_client
         (max_target_chat self) text sender_name sender_username ;;;
       ret tt)
    any_Exception
    (fun _ => ret tt).

Definition _handle_photo_message (message : Message) : M unit :=
  try_except
    (if negb (should_process_message self (chat_id message))
     then ret tt
     else
       let (sender_name, sender_username) := _get_sender_info message in
       photo <- last_photo (photo message) ;;
       file_url <- get_file_url (file_id photo) ;;
       let caption := caption message in
       GreenApiClient.send_photo env green_api_client
         (max_target_chat self) file_url caption sender_name sender_username ;;;
       ret tt)
    any_Exception
    (fun _ => ret tt).

Definition _handle_video_message (message : Message) : M unit :=
  try_except
    (if negb (should_process_message self (chat_id message))
     then ret tt
     else
       let (sender_name, sender_username) := _get_sender_info message in
       video <- attr_of (video message) ;;
       file_url <- get_file_url (file_id video) ;;
       let caption := caption message in
       GreenApiClient.send_video env green_api_client
         (max_target_chat self) file_url caption sender_name sender_username ;;;
       ret tt)
    any_Exception
    (fun _ => ret tt).

Definition _handle_document_message (message : Message) : M unit :=
  try_except
    (if negb (should_process_message self (chat_id message))
     then ret tt
     else
       let (sender_name, sender_username) := _get_sender_info message in
       document <- attr_of (document message) ;;
       file_url <- get_file_url (file_id document) ;;
       let filename := or_default (file_name document) "document" in
       let caption := caption message in
       GreenApiClient.send_document env green_api_client
         (max_target_chat self) file_url filename caption
         sender_name sender_username ;;;
       ret tt)
    any_Exception
    (fun _ => ret tt).

Definition _handle_voice_message (message : Message) : M unit :=
  try_except
    (if negb (should_process_message self (chat_id message))
     then ret tt
     else
       let (sender_name, sender_username) := _get_sender_info message in
       voice <- attr_of (voice message) ;;
       file_url <- get_file_url (file_id voice) ;;
       GreenApiClient.send_document env green_api_client
         (max_target_chat self) file_url "voice.ogg" (Some "ðŸŽ¤ Voice message")
         sender_name sender_username ;;;
       ret tt)
    any_Exception
    (fun _ => ret tt).

Definition _handle_audio_message (message : Message) : M unit :=
  try_except
    (if negb (should_process_message self (chat_id message))
     then ret tt
     else
       let (sender_name, sender_username) := _get_sender_info message in
       audio <- attr_of (audio message) ;;
       file_url <- get_file_url (file_id audio) ;;
       let filename := or_default (file_name audio) "audio.mp3" in
       GreenApiClient.send_document env green_api_client
         (max_target_chat self) file_url filename (Some "ðŸŽµ Audio")
         sender_name sender_username ;;;
       ret tt)
    any_Exception
    (fun _ => ret tt).

(** The filter the text handler is registered with:
    [message.text and not message.text.startswith("/")]. *)
Definition text_filter (message : Message) : bool :=
  match text message with
  | Some s => negb (s =? "") && negb (startswith "/" s)
  | None => false
  end.

Definition is_not_None {A} (o : option A) : bool :=
  match o with Some _ => true | None => false end.

(** The handlers, in the order [_register_handlers] registers them, each
    with its filter. *)
Definition _register_handlers : list ((Message -> bool) * (Message -> M unit)) :=
  [ (text_filter, _handle_text_message);
    (fun message => is_not_None (photo message), _handle_photo_message);
    (fun message => is_not_None (video message), _handle_video_message);
    (fun message => is_not_None (document message), _handle_document_message);
    (fun message => is_not_None (voice message), _handle_voice_message);
    (fun message => is_not_None (audio message), _handle_audio_message) ].

(** The dispatcher calls the first registered handler whose filter
    accepts the message, and no other. *)
Fixpoint trigger (handlers : list ((Message -> bool) * (Message -> M unit)))
    (message : Message) : M unit :=
  match handlers with
  | [] => ret tt
  | (accepts, handler) :: rest =>
      if accepts message then handler message else trigger rest message
  end.

(** [self.dispatcher.feed_update(bot, update)] *)
Definition feed_update (update : Update) : M unit :=
  match message update with
  | Some m => trigger _register_handlers m
  | None => ret tt
  end.

Definition handle_update (update_data : value) : M value :=
  try_except
    (update <- lift_result (parse_update env update_data) ;;
     feed_update update ;;;
     ret status_success)
    any_Exception
    (fun e => ret (status_error e)).

End Handlers.

End TelegramWebhookHandler.

(* ================================================================= *)
(** * app/main.py *)

Module Main.

(** What the endpoints read of a request: its headers and what
    [request.json()] gives, a decoded body or an exception. *)
Record Request : Type := mkRequest {
  headers : list (string * string);
  json : exn + value
}.

Record Response : Type := mkResponse {
  status_code : Z;
  content : value
}.

(** [JSONResponse(content=..., status_code=...)].  The response renders its
    content when it is built, which fails on NaN and on an infinity; the
    values of the model hold integers only, so here a response can always be
    built. *)
Definition JSONResponse (content : value) (status_code : Z) : Response :=
  {| status_code := status_code; content := content |}.

(** [request.headers.get(name)]: header names compare without case. *)
Fixpoint headers_get (hs : list (string * string)) (name : string) : option string :=
  match hs with
  | [] => None
  | (k, v) :: rest => if lower k =? lower name then Some v else headers_get rest name
  end.

(** [raise HTTPException(status_code=401, detail="Unauthorized")] *)
Definition Unauthorized : exn := Exn (HTTPException 401) "401: Unauthorized".

Section Endpoints.
Variable env : Env.
Variable settings : Config.Settings.
Variable telegram_client : TelegramClient.t.
Variable green_api_client : GreenApiClient.t.
Variable webhook_handler : WebhookHandler.t.
Variable telegram_webhook_handler : option TelegramWebhookHandler.t.

Definition webhook_endpoint (request : Request) : M Response :=
  try_except
    (if negb (Config.enable_max_to_telegram settings)
     then ret (JSONResponse
                 (JObj [("status", JStr "disabled");
                        ("message", JStr "Max → Telegram direction is disabled")])
                 200)
     else
       payload <- lift_result (json request) ;;
       (if truthy_opt (Config.webhook_secret settings)
        then
          let auth_header := headers_get (headers request) "Authorization" in
          if negb (truthy_opt auth_header)
             || negb (or_default auth_header ""
                      =? "Bearer " ++ or_default (Config.webhook_secret settings) "")
          then raise Unauthorized
          else ret tt
        else ret tt) ;;;
       result <- WebhookHandler.handle_incoming_message
                   env telegram_client webhook_handler payload ;;
       ret (JSONResponse result 200))
    any_Exception
    (fun e => ret (JSONResponse (status_error e) 500)).

Definition telegram_webhook_endpoint (request : Request) : M Response :=
  try_except
    (if negb (Config.enable_telegram_to_max settings)
     then ret (JSONResponse
                 (JObj [("status", JStr "disabled");
                        ("message", JStr "Telegram → Max direction is disabled")])
                 200)
     else
       (if truthy_opt (Config.telegram_webhook_secret settings)
        then
          let secret_header :=
            headers_get (headers request) "X-Telegram-Bot-Api-Secret-Token" in
          if negb (truthy_opt secret_header)
             || negb (or_default secret_header ""
                      =? or_default (Config.telegram_webhook_secret settings) "")
          then raise Unauthorized
          else ret tt
        else ret tt) ;;;
       update_data <- lift_result (json request) ;;
       match telegram_webhook_handler with
       | Some handler =>
           result <- TelegramWebhookHandler.handle_update
                       env green_api_client handler update_data ;;
           ret (JSONResponse result 200)
       | None =>
           ret (JSONResponse
                  (JObj [("status", JStr "error");
                         ("message", JStr "Handler not initialized")])
                  500)
       end)
    any_Exception
    (fun e => ret (JSONResponse (status_error e) 500)).


End Endpoints.

End Main.

(* ================================================================= *)
(** * Notions the properties are stated with *)

(** The return value of a run and the world it leaves. *)
Definition result_of {A} (r : outcome A * World) : outcome A := fst r.
Definition world_of {A} (r : outcome A * World) : World := snd r.

(** A field of a JSON object, [default] when the key is missing: what
    [payload.get(key, default)] gives on an object. *)
Definition field (key : string) (default : value) (v : value) : value :=
  match v with
  | JObj f => match assoc key f with Some x => x | None => default end
  | _ => default
  end.

(** The chat a Max webhook comes from, as [handle_incoming_message] reads
    it: [chatId], else [sender], of [senderData].  There is none when the
    payload or its [senderData] is not an object. *)
Definition source_chat_id (payload : value) : option value :=
  match payload with
  | JObj _ =>
      match field "senderData" (JObj []) payload with
      | JObj sd => Some (or_ (field "chatId" JNull (JObj sd)) (field "sender" JNull (JObj sd)))
      | _ => None
      end
  | _ => None
  end.

Definition absent_or_str (v : option value) : bool :=
  match v with
  | None | Some (JStr _) => true
  | _ => false
  end.

Definition absent_or_obj (v : option value) : bool :=
  match v with
  | None | Some (JObj _) => true
  | _ => false
  end.

Definition key (k : string) (v : value) : option value :=
  match v with
  | JObj f => assoc k f
  | _ => None
  end.

(** A payload in the format GREEN-API documents for its webhooks, as far as
    the handler depends on it: an object, whose [senderData] and
    [messageData] are objects when present, with a string for
    [senderData.sender] and an object for [messageData.textMessageData]
    when present. *)
Definition green_api_payload (payload : value) : bool :=
  is_dict payload
  && absent_or_obj (key "senderData" payload)
  && absent_or_str (key "sender" (field "senderData" (JObj []) payload))
  && absent_or_obj (key "messageData" payload)
  && absent_or_obj (key "textMessageData" (field "messageData" (JObj []) payload)).


Definition message_type (payload : value) : value :=
  field "typeMessage" JNull (field "messageData" (JObj []) payload).

(** The text body of a [textMessage]. *)
Definition text_body (payload : value) : value :=
  field "textMessage" (JStr "")
    (field "textMessageData" (JObj []) (field "messageData" (JObj []) payload)).

(** A call that sends a text to Max: the payload of [sendMessage] is the
    one with a [message]. *)
Definition is_text_send (c : call) : bool :=
  match c with
  | MaxPost _ payload => match assoc "message" payload with Some _ => true | None => false end
  | _ => false
  end.

Definition not_text_send (c : call) : bool := negb (is_text_send c).

(** [m] makes no call but some accepted by [P], whatever the world. *)
Definition emits {A} (P : call -> bool) (m : M A) : Prop :=
  forall w, exists extra,
    calls (world_of (m w)) = (calls w ++ extra)%list /\ forallb P extra = true.


(** Whether the character [c] occurs in [s]. *)
Fixpoint occurs (c : ascii) (s : string) : bool :=
  match s with
  | EmptyString => false
  | String d s' => Ascii.eqb d c || occurs c s'
  end.

(** The sender name and the sender phone [handle_incoming_message] reads
    from a payload in the GREEN-API format. *)
Definition sender_name_of (payload : value) : value :=
  let sender_data := field "senderData" (JObj []) payload in
  or_ (field "senderName" JNull sender_data) (field "name" JNull sender_data).

Definition sender_phone_of (payload : value) : value :=
  match field "sender" (JStr "") (field "senderData" (JObj []) payload) with
  | JStr s => JStr (replace "@c.us" "" s)
  | v => v
  end.

(** The world after one more call. *)
Definition after_call (c : call) (w : World) : World :=
  mkWorld (files w) (calls w ++ [c])%list (tmp_count w).

(** The world after the download of [content] from the URL [u] into a
    fresh temporary file. *)
Definition after_download (env : Env) (u content : string) (w : World) : World :=
  let name := tmp_name env (tmp_count w) (splitext_ext u) in
  mkWorld ((name, content) :: filter (fun f => negb (fst f =? name)) (files w))
          (calls w ++ [HttpGet (JStr u)])%list
          (S (tmp_count w)).

(** The calls [send_photo], [send_video] and [send_document] make to the
    Bot API for the temporary file [path]. *)
Definition photo_call (env : Env) (self : TelegramClient.t) (path : string)
    (caption sender_name sender_phone : value) : call :=
  BotSendPhoto (TelegramClient.channel_id self) path
    (TelegramClient._format_message env (or_ caption (JStr "ðŸ“· Photo"))
       sender_name sender_phone)
    "HTML".

Definition video_call (env : Env) (self : TelegramClient.t) (path : string)
    (caption sender_name sender_phone : value) : call :=
  BotSendVideo (TelegramClient.channel_id self) path
    (TelegramClient._format_message env (or_ caption (JStr "ðŸŽ¥ Video"))
       sender_name sender_phone)
    "HTML".

Definition document_call (env : Env) (self : TelegramClient.t) (path : string)
    (filename caption sender_name sender_phone : value) : call :=
  BotSendDocument (TelegramClient.channel_id self) path filename
    (TelegramClient._format_message env
       (or_ caption (JStr ("ðŸ“„ " ++ fmt env (or_ filename (JStr "Document")))))
       sender_name sender_phone)
    "HTML".

(** Whether GREEN-API took a request: status 200 with a JSON object for
    body. *)
Definition accepted (o : post_outcome) : bool :=
  match o with
  | PostResponse status (inr (JObj _)) => (status =? 200)%Z
  | _ => false
  end.

(** The request [send_file_by_url] posts. *)
Definition file_post (gc : GreenApiClient.t) (chat_id file_url filename caption : string)
  : call :=
  MaxPost (GreenApiClient.base_url gc ++ "/sendFileByUrl/" ++ GreenApiClient.api_token gc)
    [("chatId", GreenApiClient._format_chat_id chat_id);
     ("urlFile", file_url);
     ("fileName", filename);
     ("caption", caption)].

(** Every value [m] returns satisfies [P]. *)
Definition returns {A} (P : A -> Prop) (m : M A) : Prop :=
  forall w a w', m w = (Ret a, w') -> P a.

(** The call [send_text_message] of the Telegram client makes. *)
Definition message_call (env : Env) (self : TelegramClient.t)
    (text sender_name sender_phone : value) : call :=
  BotSendMessage (TelegramClient.channel_id self)
    (TelegramClient._format_message env text sender_name sender_phone) "HTML".

(** What a handler answers after a send through the Bot API whose result
    it does not look at: [success], unless the send raised something else
    than a [TelegramAPIError]. *)
Definition status_after (answer : option exn) : value :=
  match answer with
  | None => status_success
  | Some e => if is_TelegramAPIError e then status_success else status_error e
  end.

(** The content of the file [name], when it exists. *)
Definition file_content (name : string) (w : World) : option string :=
  assoc name (files w).

(* ================================================================= *)
(** * Sample inputs *)

Module Sample.

Definition world : World := mkWorld [] [] 0.

(** Downloads succeed, the Bot API and GREEN-API accept every call. *)
Definition env : Env :=
  {| py_str := fun _ => "";
     http_get := fun _ => GetResponse 200 (inr "content");
     tmp_name := fun n suffix => "/tmp/tmp" ++ str_of_int (Z.of_nat n) ++ suffix;
     bot_api := fun _ => None;
     bot_get_file := fun _ => inr "documents/file_0";
     green_post := fun _ _ => PostResponse 200 (inr (JObj [("idMessage", JStr "1")]));
     parse_update := fun _ => inr (Aiogram.mkUpdate None) |}.

(** As [env], but every send through the Bot API raises. *)
Definition env_bot_raises : Env :=
  {| py_str := py_str env;
     http_get := http_get env;
     tmp_name := tmp_name env;
     bot_api := fun _ => Some (Exn TelegramAPIError "Bad Request: chat not found");
     bot_get_file := bot_get_file env;
     green_post := green_post env;
     parse_update := parse_update env |}.

(** As [env], but reading the body of a download raises, after the
    temporary file was created. *)
Definition env_read_raises : Env :=
  {| py_str := py_str env;
     http_get := fun _ => GetResponse 200 (inl (Exn OtherError "Response payload is not completed"));
     tmp_name := tmp_name env;
     bot_api := bot_api env;
     bot_get_file := bot_get_file env;
     green_post := green_post env;
     parse_update := parse_update env |}.

Definition max_to_telegram : Config.Settings :=
  {| Config.max_instance_id := "1103123456";
     Config.max_api_token := "token";
     Config.telegram_bot_token := "42:bot";
     Config.telegram_channel_id := "-1001";
     Config.max_chat_id := Some "mychat";
     Config.telegram_webhook_url := None;
     Config.telegram_webhook_secret := None;
     Config.telegram_chat_id := None;
     Config.max_target_chat_id := "";
     Config.enable_max_to_telegram := true;
     Config.enable_telegram_to_max := false;
     Config.webhook_port := 8000;
     Config.webhook_host := "0.0.0.0";
     Config.log_level := "INFO";
     Config.webhook_secret := Some "s3cret" |}.

Definition telegram_to_max : Config.Settings :=
  {| Config.max_instance_id := "1103123456";
     Config.max_api_token := "token";
     Config.telegram_bot_token := "42:bot";
     Config.telegram_channel_id := "";
     Config.max_chat_id := None;
     Config.telegram_webhook_url := None;
     Config.telegram_webhook_secret := Some "s3cret";
     Config.telegram_chat_id := Some "7";
     Config.max_target_chat_id := "-69020002426896";
     Config.enable_max_to_telegram := false;
     Config.enable_telegram_to_max := true;
     Config.webhook_port := 8000;
     Config.webhook_host := "0.0.0.0";
     Config.log_level := "INFO";
     Config.webhook_secret := None |}.

Definition telegram_client : TelegramClient.t := TelegramClient.init max_to_telegram.
Definition green_api_client : GreenApiClient.t := GreenApiClient.init telegram_to_max.
Definition webhook_handler : WebhookHandler.t := WebhookHandler.init max_to_telegram.
Definition telegram_webhook_handler : TelegramWebhookHandler.t :=
  TelegramWebhookHandler.init telegram_client telegram_to_max.

(** A request with a well-formed body and no header at all. *)
Definition request_without_header : Main.Request :=
  {| Main.headers := []; Main.json := inr (JObj []) |}.

Definition alice : Aiogram.User :=
  {| Aiogram.full_name := "Alice"; Aiogram.username := Some "alice99" |}.

Definition text_message (chat : Z) (body : string) : Aiogram.Message :=
  {| Aiogram.chat_id := chat;
     Aiogram.from_user := Some alice;
     Aiogram.text := Some body;
     Aiogram.caption := None;
     Aiogram.photo := None;
     Aiogram.video := None;
     Aiogram.document := None;
     Aiogram.voice := None;
     Aiogram.audio := None |}.

(** As [env], with [update] for what the decoded update parses to. *)
Definition env_with_update (update : Aiogram.Update) : Env :=
  {| py_str := py_str env;
     http_get := http_get env;
     tmp_name := tmp_name env;
     bot_api := bot_api env;
     bot_get_file := bot_get_file env;
     green_post := green_post env;
     parse_update := fun _ => inr update |}.

Definition env_update_from_chat_5 : Env :=
  env_with_update (Aiogram.mkUpdate (Some (text_message 5 "hi"))).

(** A photo in two sizes from chat 7, with a caption. *)
Definition photo_message : Aiogram.Message :=
  {| Aiogram.chat_id := 7;
     Aiogram.from_user := Some alice;
     Aiogram.text := None;
     Aiogram.caption := Some "Sunset";
     Aiogram.photo := Some [Aiogram.mkFile "small" None; Aiogram.mkFile "large" None];
     Aiogram.video := None;
     Aiogram.document := None;
     Aiogram.voice := None;
     Aiogram.audio := None |}.

(** A request that carries the secret of [max_to_telegram], under a header
    name in lower case, and a text message from the filtered chat. *)
Definition authorised_request : Main.Request :=
  {| Main.headers := [("content-type", "application/json");
                      ("authorization", "Bearer s3cret")];
     Main.json :=
       inr (JObj [("typeWebhook", JStr "incomingMessageReceived");
                  ("senderData",
                   JObj [("chatId", JStr "mychat");
                         ("sender", JStr "79001234567@c.us");
                         ("senderName", JStr "Bob")]);
                  ("messageData",
                   JObj [("typeMessage", JStr "textMessage");
                         ("textMessageData", JObj [("textMessage", JStr "Hello")])])]) |}.

(** A decoded Telegram update with the text [hi] from chat 5. *)
Definition update_data : value :=
  JObj [("update_id", JInt 1);
        ("message",
         JObj [("message_id", JInt 1);
               ("chat", JObj [("id", JInt 5); ("type", JStr "private")]);
               ("text", JStr "hi")])].

Definition max_payload (chat : string) (message_data : value) : value :=
  JObj [("typeWebhook", JStr "incomingMessageReceived");
        ("senderData", JObj [("chatId", JStr chat)]);
        ("messageData", message_data)].

(** The document event of the specification's scenario. *)
Definition document_event : value :=
  max_payload "mychat"
    (JObj [("typeMessage", JStr "documentMessage");
           ("fileMessageData",
            JObj [("downloadUrl", JStr "http://x/doc.pdf");
                  ("fileName", JStr "report.pdf")])]).

Definition sticker_event (chat : string) : value :=
  max_payload chat (JObj [("typeMessage", JStr "stickerMessage")]).









End Sample.

(* ================================================================= *)
(** * Properties of app/config.py *)

(** C4.  [validate_settings] raises exactly when the two direction flags are
    both true or both false, and what it raises then is a [ValueError]; with
    exactly one flag true it returns. *)
Theorem validate_settings_raises_iff_flags_agree :
  forall s : Config.Settings,
    ((exists e, Config.validate_settings s = inl e) <->
     ((Config.enable_max_to_telegram s = true /\ Config.enable_telegram_to_max s = true)
      \/ (Config.enable_max_to_telegram s = false /\ Config.enable_telegram_to_max s = false)))
    /\ (forall e, Config.validate_settings s = inl e -> exn_cls e = ValueError).
Proof.
  intros s. unfold Config.validate_settings.
  destruct (Config.enable_max_to_telegram s), (Config.enable_telegram_to_max s);
    simpl; (split; [split|]).
  all: try (intros _; eauto; fail).
  all: try (intros [e He]; discriminate He).
  all: try (intros [[H1 H2]|[H1 H2]]; discriminate).
  all: try (intros e He; inversion He; reflexivity).
  all: try (intros e He; discriminate He).
Qed.

(* ================================================================= *)
(** * Properties of the sender attribution *)

(** C7.  Without a sender name and without a sender handle (each [None] or
    empty), both formatters return the text they were given: the one of the
    Telegram client and the one of the GREEN-API client. *)
Theorem format_message_without_sender_is_identity :
  forall (env : Env) (text sender_name sender_phone : value)
         (body : string) (name handle : option string),
    truthy sender_name = false ->
    truthy sender_phone = false ->
    truthy_opt name = false ->
    truthy_opt handle = false ->
    TelegramClient._format_message env text sender_name sender_phone = text
    /\ GreenApiClient._format_message body name handle = body.
Proof.
  intros env text sender_name sender_phone body name handle Hn _ Hname Hhandle.
  split.
  - unfold TelegramClient._format_message. now rewrite Hn.
  - unfold GreenApiClient._format_message. now rewrite Hname, Hhandle.
Qed.

Lemma format_message_without_sender_is_identity_witness :
  TelegramClient._format_message Sample.env (JStr "Hello") JNull JNull = JStr "Hello"
  /\ GreenApiClient._format_message "Hello" None None = "Hello".
Proof.
  apply (format_message_without_sender_is_identity
           Sample.env (JStr "Hello") JNull JNull "Hello" None None);
    reflexivity.
Defined.

(** [send_text_message] makes one call, whatever GREEN-API answers: the
    POST of the formatted chat and the formatted message to [sendMessage]. *)
Lemma send_text_message_posts :
  forall env gc chat_id text sender_name sender_username w,
    calls (world_of (GreenApiClient.send_text_message env gc chat_id text
                       sender_name sender_username w))
    = List.app (calls w)
        [MaxPost (GreenApiClient.base_url gc ++ "/sendMessage/"
                  ++ GreenApiClient.api_token gc)
           [("chatId", GreenApiClient._format_chat_id chat_id);
            ("message",
             GreenApiClient._format_message text sender_name sender_username)]].
Proof.
  intros env gc chat_id text sender_name sender_username w.
  unfold GreenApiClient.send_text_message, GreenApiClient.post,
    try_except, bind, record_call, world_of; simpl.
  destruct (green_post env _ _) as [e | status [e | result]]; simpl;
    try reflexivity;
    destruct (status =? 200)%Z; simpl; try reflexivity.
  destruct result; reflexivity.
Qed.

(** C5.  For the sender with name [Alice] and handle [alice99] the
    GREEN-API formatter turns [Hello] into the header with the name and the
    handle, two line feeds and [Hello]; [send_text_message] posts that as
    the [message] of one [sendMessage] request; and a Telegram text message
    [Hello] from that user, from a chat the filter lets through, is relayed
    as exactly that request. *)
Theorem telegram_hello_from_alice_reaches_max :
  forall (env : Env) (gc : GreenApiClient.t) (self : TelegramWebhookHandler.t)
         (m : Aiogram.Message) (w : World),
    Aiogram.text m = Some "Hello" ->
    Aiogram.from_user m = Some (Aiogram.mkUser "Alice" (Some "alice99")) ->
    TelegramWebhookHandler.should_process_message self (Aiogram.chat_id m) = true ->
    GreenApiClient._format_message "Hello" (Some "Alice") (Some "alice99")
      = "📨 *From Telegram:* 👤 Alice | @alice99" ++ LF ++ LF ++ "Hello"
    /\ (forall chat_id,
          calls (world_of (GreenApiClient.send_text_message env gc chat_id "Hello"
                             (Some "Alice") (Some "alice99") w))
          = List.app (calls w)
              [MaxPost (GreenApiClient.base_url gc ++ "/sendMessage/"
                        ++ GreenApiClient.api_token gc)
                 [("chatId", GreenApiClient._format_chat_id chat_id);
                  ("message",
                   "📨 *From Telegram:* 👤 Alice | @alice99" ++ LF ++ LF ++ "Hello")]])
    /\ calls (world_of (TelegramWebhookHandler.feed_update env gc self
                          (Aiogram.mkUpdate (Some m)) w))
       = List.app (calls w)
          [MaxPost (GreenApiClient.base_url gc ++ "/sendMessage/"
                    ++ GreenApiClient.api_token gc)
             [("chatId",
               GreenApiClient._format_chat_id (TelegramWebhookHandler.max_target_chat self));
              ("message",
               "📨 *From Telegram:* 👤 Alice | @alice99" ++ LF ++ LF ++ "Hello")]].
Proof.
  intros env gc self m w Htext Hfrom Hchat.
  split; [reflexivity|]. split.
  - intros chat_id. apply send_text_message_posts.
  - unfold TelegramWebhookHandler.feed_update; simpl.
    unfold TelegramWebhookHandler.text_filter; rewrite Htext; simpl.
    unfold TelegramWebhookHandler._handle_text_message,
      TelegramWebhookHandler._get_sender_info.
    rewrite Hchat, Hfrom, Htext; simpl.
    pose proof (send_text_message_posts env gc
                  (TelegramWebhookHandler.max_target_chat self) "Hello"
                  (Some "Alice") (Some "alice99") w) as Hpost.
    unfold try_except, bind, world_of in *.
    destruct (GreenApiClient.send_text_message env gc _ _ _ _ w) as [[sent | e] w'];
      exact Hpost.
Qed.

Lemma telegram_hello_from_alice_reaches_max_witness :
  calls (world_of (TelegramWebhookHandler.feed_update
                     Sample.env Sample.green_api_client Sample.telegram_webhook_handler
                     (Aiogram.mkUpdate (Some (Sample.text_message 7 "Hello")))
                     Sample.world))
  = [MaxPost "https://1103.api.green-api.com/v3/waInstance1103123456/sendMessage/token"
       [("chatId", "-69020002426896");
        ("message", "📨 *From Telegram:* 👤 Alice | @alice99" ++ LF ++ LF ++ "Hello")]].
Proof.
  exact (proj2 (proj2 (telegram_hello_from_alice_reaches_max
                         Sample.env Sample.green_api_client
                         Sample.telegram_webhook_handler
                         (Sample.text_message 7 "Hello") Sample.world
                         eq_refl eq_refl eq_refl))).
Defined.


(* ================================================================= *)
(** * The monad, step by step *)

Lemma bind_Ret {A B} (m : M A) (k : A -> M B) (w w' : World) (a : A) :
  m w = (Ret a, w') -> bind m k w = k a w'.
Proof. intros H. unfold bind. now rewrite H. Qed.

Lemma bind_ret {A B} (a : A) (k : A -> M B) (w : World) :
  bind (ret a) k w = k a w.
Proof. reflexivity. Qed.

Lemma bind_Raise {A B} (m : M A) (k : A -> M B) (w w' : World) (e : exn) :
  m w = (Raise e, w') -> bind m k w = (Raise e, w').
Proof. intros H. unfold bind. now rewrite H. Qed.

Lemma try_except_Ret {A} (m : M A) catches handler (w w' : World) (a : A) :
  m w = (Ret a, w') -> try_except m catches handler w = (Ret a, w').
Proof. intros H. unfold try_except. now rewrite H. Qed.

Lemma try_except_Raise {A} (m : M A) catches handler (w w' : World) (e : exn) :
  m w = (Raise e, w') -> catches e = true ->
  try_except m catches handler w = handler e w'.
Proof. intros H Hc. unfold try_except. now rewrite H, Hc. Qed.

Lemma get_object (f : list (string * value)) (k : string) (d : value) (w : World) :
  get (JObj f) k d w = (Ret (field k d (JObj f)), w).
Proof. reflexivity. Qed.

(* ================================================================= *)
(** * Properties of the endpoints of app/main.py *)

(** With the direction enabled, a secret configured and a body that
    decodes, a request to [/webhook] whose [Authorization] header is missing
    or different from [Bearer <secret>] makes no call, and the
    [HTTPException] raised for it is caught by the endpoint's own
    [except Exception]: the answer has status 500. *)
Lemma webhook_endpoint_unauthorized :
  forall env settings tc wh request payload w,
    Config.enable_max_to_telegram settings = true ->
    truthy_opt (Config.webhook_secret settings) = true ->
    Main.json request = inr payload ->
    (let auth_header := Main.headers_get (Main.headers request) "Authorization" in
     truthy_opt auth_header = false
     \/ (or_default auth_header ""
          =? "Bearer " ++ or_default (Config.webhook_secret settings) "") = false) ->
    Main.webhook_endpoint env settings tc wh request w
    = (Ret (Main.JSONResponse (status_error Main.Unauthorized) 500), w).
Proof.
  intros env settings tc wh request payload w Hen Hsec Hjson Hauth.
  unfold Main.webhook_endpoint, try_except, bind.
  rewrite Hen, Hsec, Hjson; simpl in *.
  destruct Hauth as [H | H]; rewrite H; simpl; try reflexivity.
  now rewrite orb_true_r.
Qed.

(** The same for [/telegram/webhook] and its secret header. *)
Lemma telegram_webhook_endpoint_unauthorized :
  forall env settings gc handler request w,
    Config.enable_telegram_to_max settings = true ->
    truthy_opt (Config.telegram_webhook_secret settings) = true ->
    (let secret_header :=
       Main.headers_get (Main.headers request) "X-Telegram-Bot-Api-Secret-Token" in
     truthy_opt secret_header = false
     \/ (or_default secret_header ""
          =? or_default (Config.telegram_webhook_secret settings) "") = false) ->
    Main.telegram_webhook_endpoint env settings gc handler request w
    = (Ret (Main.JSONResponse (status_error Main.Unauthorized) 500), w).
Proof.
  intros env settings gc handler request w Hen Hsec Hauth.
  unfold Main.telegram_webhook_endpoint, try_except, bind.
  rewrite Hen, Hsec; simpl in *.
  destruct Hauth as [H | H]; rewrite H; simpl; try reflexivity.
  now rewrite orb_true_r.
Qed.

(** C1.  A request without the secret header, sent to an endpoint whose
    direction is enabled and whose secret is configured, makes no call, but
    it is answered with status 500 and an error body, on [/webhook] and on
    [/telegram/webhook] alike: not with the 401 the code raises. *)
Theorem request_without_secret_header_answered_500 :
  forall (env : Env) (w : World),
    Main.webhook_endpoint env Sample.max_to_telegram Sample.telegram_client
      Sample.webhook_handler Sample.request_without_header w
    = (Ret {| Main.status_code := 500;
              Main.content := JObj [("status", JStr "error");
                                    ("message", JStr "401: Unauthorized")] |}, w)
    /\ Main.telegram_webhook_endpoint env Sample.telegram_to_max Sample.green_api_client
         (Some Sample.telegram_webhook_handler) Sample.request_without_header w
       = (Ret {| Main.status_code := 500;
                 Main.content := JObj [("status", JStr "error");
                                       ("message", JStr "401: Unauthorized")] |}, w).
Proof.
  intros env w. split.
  - apply (webhook_endpoint_unauthorized env Sample.max_to_telegram
             Sample.telegram_client Sample.webhook_handler
             Sample.request_without_header (JObj []) w);
      try reflexivity.
    now left.
  - apply telegram_webhook_endpoint_unauthorized; try reflexivity.
    now left.
Qed.

(* ================================================================= *)
(** * Properties of app/telegram_client.py *)

(** C2.  When the download has created its temporary file and the send
    through the Bot API raises a [TelegramAPIError], [send_photo],
    [send_video] and [send_document] return [False] and the temporary file
    is still there; it is there as well when reading the downloaded body
    raises after the file was created. *)
Theorem temporary_file_left_behind_on_failure :
  (let r := TelegramClient.send_photo Sample.env_bot_raises Sample.telegram_client
              (JStr "http://x/p.jpg") JNull JNull JNull Sample.world in
   result_of r = Ret false /\ file_exists "/tmp/tmp0.jpg" (world_of r) = true)
  /\ (let r := TelegramClient.send_video Sample.env_bot_raises Sample.telegram_client
                 (JStr "http://x/v.mp4") JNull JNull JNull Sample.world in
      result_of r = Ret false /\ file_exists "/tmp/tmp0.mp4" (world_of r) = true)
  /\ (let r := TelegramClient.send_document Sample.env_bot_raises Sample.telegram_client
                 (JStr "http://x/doc.pdf") (JStr "report.pdf") JNull JNull JNull
                 Sample.world in
      result_of r = Ret false /\ file_exists "/tmp/tmp0.pdf" (world_of r) = true)
  /\ (let r := TelegramClient.send_photo Sample.env_read_raises Sample.telegram_client
                 (JStr "http://x/p.jpg") JNull JNull JNull Sample.world in
      result_of r = Ret false /\ file_exists "/tmp/tmp0.jpg" (world_of r) = true).
Proof.
  repeat split; vm_compute; reflexivity.
Qed.

(** When the send succeeds the temporary file is removed. *)
Lemma temporary_file_removed_after_send :
  let r := TelegramClient.send_photo Sample.env Sample.telegram_client
             (JStr "http://x/p.jpg") JNull JNull JNull Sample.world in
  result_of r = Ret true /\ files (world_of r) = [].
Proof.
  split; vm_compute; reflexivity.
Qed.

(* ================================================================= *)
(** * Properties of app/handlers.py *)

(** C6.  The document event with [fileMessageData] equal to
    [{downloadUrl: "http://x/doc.pdf", fileName: "report.pdf"}] and no
    caption is relayed with the file name [report.pdf]; its caption is the
    one written in [send_document], whose first four characters are
    [U+00F0 U+0178 U+201C U+201E], not the document icon [U+1F4C4]. *)
Theorem document_event_caption_differs_from_icon :
  calls (world_of (WebhookHandler.handle_incoming_message
                     Sample.env Sample.telegram_client Sample.webhook_handler
                     Sample.document_event Sample.world))
  = [HttpGet (JStr "http://x/doc.pdf");
     BotSendDocument "-1001" "/tmp/tmp0.pdf" (JStr "report.pdf")
       (JStr "ðŸ“„ report.pdf") "HTML"]
  /\ "ðŸ“„ report.pdf" <> "📄 report.pdf".
Proof.
  split.
  - vm_compute. reflexivity.
  - intros H. discriminate H.
Qed.

(** An event whose type is not on the allow-list is ignored, without any
    effect. *)
Lemma handle_incoming_message_off_list :
  forall env tc self fields w,
    in_strs (field "typeWebhook" JNull (JObj fields))
            WebhookHandler.allowed_webhook_types = false ->
    WebhookHandler.handle_incoming_message env tc self (JObj fields) w
    = (Ret (status_ignored "not_a_message"), w).
Proof.
  intros env tc self fields w Hoff.
  unfold WebhookHandler.handle_incoming_message.
  apply try_except_Ret.
  rewrite (bind_Ret _ _ w w _ (get_object _ _ _ _)).
  now rewrite Hoff.
Qed.

(** An allow-listed event from a chat the filter rejects is ignored, without
    any effect. *)
Lemma handle_incoming_message_filtered :
  forall env tc self fields chat w,
    in_strs (field "typeWebhook" JNull (JObj fields))
            WebhookHandler.allowed_webhook_types = true ->
    source_chat_id (JObj fields) = Some chat ->
    WebhookHandler.should_process_message self chat = false ->
    WebhookHandler.handle_incoming_message env tc self (JObj fields) w
    = (Ret (status_ignored "chat_filter"), w).
Proof.
  intros env tc self fields chat w Hon Hsrc Hno.
  unfold WebhookHandler.handle_incoming_message.
  apply try_except_Ret.
  rewrite (bind_Ret _ _ w w _ (get_object _ _ _ _)).
  rewrite Hon; cbn [negb].
  do 3 rewrite (bind_Ret _ _ w w _ (get_object _ _ _ _)).
  unfold source_chat_id in Hsrc.
  destruct (field "senderData" (JObj []) (JObj fields)) as [| | | | |sd];
    try discriminate Hsrc.
  injection Hsrc as Hsrc.
  rewrite (bind_Ret _ _ w w _ (get_object _ _ _ _)).
  assert (Hor : or_else (field "chatId" JNull (JObj sd)) (get (JObj sd) "sender" JNull) w
                = (Ret chat, w)).
  { rewrite <- Hsrc. unfold or_else, or_, field.
    destruct (truthy _); reflexivity. }
  rewrite (bind_Ret _ _ w w _ Hor).
  now rewrite Hno.
Qed.

Lemma try_except_same {A} (m m' : M A) catches handler (w : World) :
  m w = m' w -> try_except m catches handler w = try_except m' catches handler w.
Proof. intros H. unfold try_except. now rewrite H. Qed.

Lemma green_api_payload_parts :
  forall payload,
    green_api_payload payload = true ->
    is_dict payload = true
    /\ absent_or_obj (key "senderData" payload) = true
    /\ absent_or_str (key "sender" (field "senderData" (JObj []) payload)) = true
    /\ absent_or_obj (key "messageData" payload) = true
    /\ absent_or_obj (key "textMessageData" (field "messageData" (JObj []) payload)) = true.
Proof.
  intros payload H. unfold green_api_payload in H.
  repeat (apply andb_true_iff in H; destruct H as [H ?]).
  repeat split; assumption.
Qed.

(** In a well-formed payload [messageData], defaulted to [{}], is an object. *)
Lemma message_data_is_object :
  forall fields,
    absent_or_obj (key "messageData" (JObj fields)) = true ->
    exists md, field "messageData" (JObj []) (JObj fields) = JObj md.
Proof.
  intros fields H. unfold key, field in *.
  destruct (assoc "messageData" fields) as [[| | | | |md]|];
    try discriminate H; eauto.
Qed.




(** C3 (as amended).  An event from a chat that differs from the configured
    filter causes no call in either direction.  [handle_incoming_message]
    answers it with status [ignored]; [handle_update] answers it with status
    [success], the only status it has besides [error]. *)
Theorem filtered_chat_is_not_relayed :
  forall (env : Env) (tc : TelegramClient.t) (gc : GreenApiClient.t)
         (wh : WebhookHandler.t) (th : TelegramWebhookHandler.t)
         (filter telegram_filter : string) (payload chat update_data : value)
         (m : Aiogram.Message) (w : World),
    (WebhookHandler.target_chat_id wh = Some filter ->
     filter <> "" ->
     source_chat_id payload = Some chat ->
     chat <> JStr filter ->
     exists result,
       WebhookHandler.handle_incoming_message env tc wh payload w = (Ret result, w)
       /\ status_of result = Some (JStr "ignored"))
    /\
    (TelegramWebhookHandler.target_chat_id th = Some telegram_filter ->
     telegram_filter <> "" ->
     parse_update env update_data = inr (Aiogram.mkUpdate (Some m)) ->
     str_of_int (Aiogram.chat_id m) <> telegram_filter ->
     exists result,
       TelegramWebhookHandler.handle_update env gc th update_data w = (Ret result, w)
       /\ status_of result = Some (JStr "success")).
Proof.
  intros env tc gc wh th filter telegram_filter payload chat update_data m w. split.
  - intros Htarget Hne Hsrc Hchat.
    assert (Hno : WebhookHandler.should_process_message wh chat = false).
    { unfold WebhookHandler.should_process_message. rewrite Htarget; simpl.
      apply String.eqb_neq in Hne. rewrite Hne; simpl.
      unfold or_default; simpl. rewrite Hne; simpl.
      destruct chat; try reflexivity. simpl.
      apply String.eqb_neq. intros ->. now apply Hchat. }
    destruct payload as [| | | | |fields]; try discriminate Hsrc.
    destruct (in_strs (field "typeWebhook" JNull (JObj fields))
                      WebhookHandler.allowed_webhook_types) eqn:Hon.
    + exists (status_ignored "chat_filter"). split; [|reflexivity].
      now apply handle_incoming_message_filtered with (chat := chat).
    + exists (status_ignored "not_a_message"). split; [|reflexivity].
      now apply handle_incoming_message_off_list.
  - intros Htarget Hne Hparse Hchat.
    assert (Hno : TelegramWebhookHandler.should_process_message th (Aiogram.chat_id m)
                  = false).
    { unfold TelegramWebhookHandler.should_process_message. rewrite Htarget; simpl.
      apply String.eqb_neq in Hne. rewrite Hne; simpl.
      unfold or_default; simpl. rewrite Hne; simpl.
      now apply String.eqb_neq. }
    exists status_success. split; [|reflexivity].
    unfold TelegramWebhookHandler.handle_update.
    apply try_except_Ret.
    unfold lift_result. rewrite Hparse.
    rewrite bind_ret.
    assert (Hfeed : TelegramWebhookHandler.feed_update env gc th
                      (Aiogram.mkUpdate (Some m)) w = (Ret tt, w)).
    { unfold TelegramWebhookHandler.feed_update; simpl.
      repeat match goal with
             | |- (if ?c then _ else _) w = _ => destruct c
             end;
        try reflexivity;
        unfold TelegramWebhookHandler._handle_text_message,
          TelegramWebhookHandler._handle_photo_message,
          TelegramWebhookHandler._handle_video_message,
          TelegramWebhookHandler._handle_document_message,
          TelegramWebhookHandler._handle_voice_message,
          TelegramWebhookHandler._handle_audio_message;
        apply try_except_Ret; now rewrite Hno. }
    now rewrite (bind_Ret _ _ w w _ Hfeed).
Qed.

Lemma filtered_chat_is_not_relayed_witness :
  (exists result,
     WebhookHandler.handle_incoming_message Sample.env Sample.telegram_client
       Sample.webhook_handler (Sample.sticker_event "other") Sample.world
     = (Ret result, Sample.world)
     /\ status_of result = Some (JStr "ignored"))
  /\ (exists result,
        TelegramWebhookHandler.handle_update Sample.env_update_from_chat_5
          Sample.green_api_client Sample.telegram_webhook_handler
          Sample.update_data Sample.world
        = (Ret result, Sample.world)
        /\ status_of result = Some (JStr "success")).
Proof.
  destruct (filtered_chat_is_not_relayed
              Sample.env_update_from_chat_5 Sample.telegram_client
              Sample.green_api_client Sample.webhook_handler
              Sample.telegram_webhook_handler "mychat" "7"
              (Sample.sticker_event "other") (JStr "other") Sample.update_data
              (Sample.text_message 5 "hi") Sample.world) as [Hmax Htelegram].
  split.
  - apply Hmax; try reflexivity; discriminate.
  - apply Htelegram; try reflexivity; discriminate.
Defined.

(** C3 fails as stated: with the filter [7] configured, the update carrying
    [hi] from chat 5 is not answered with status [ignored]. *)
Lemma filtered_telegram_update_not_answered_ignored :
  TelegramWebhookHandler.target_chat_id Sample.telegram_webhook_handler = Some "7"
  /\ str_of_int 5 <> "7"
  /\ ~ (exists result,
          result_of (TelegramWebhookHandler.handle_update Sample.env_update_from_chat_5
                       Sample.green_api_client Sample.telegram_webhook_handler
                       Sample.update_data Sample.world)
          = Ret result
          /\ status_of result = Some (JStr "ignored")).
Proof.
  split; [reflexivity|]. split; [discriminate|].
  intros [result [Hrun Hstatus]].
  vm_compute in Hrun. injection Hrun as <-.
  discriminate Hstatus.
Qed.







(* ================================================================= *)
(** * Which calls a computation can make *)

Section Emits.
Variable P : call -> bool.

Lemma emits_ret {A} (a : A) : emits P (ret a).
Proof. intros w. exists []. now rewrite app_nil_r. Qed.

Lemma emits_raise {A} (e : exn) : emits P (@raise A e).
Proof. intros w. exists []. now rewrite app_nil_r. Qed.

Lemma emits_bind {A B} (m : M A) (k : A -> M B) :
  emits P m -> (forall a, emits P (k a)) -> emits P (bind m k).
Proof.
  unfold emits, world_of. intros Hm Hk w. unfold bind.
  destruct (Hm w) as [x [Ex Px]].
  destruct (m w) as [[a | e] w']; simpl in Ex.
  - destruct (Hk a w') as [y [Ey Py]].
    exists (x ++ y)%list. rewrite Ey, Ex, app_assoc, forallb_app, Px, Py. now split.
  - exists x. now split.
Qed.

Lemma emits_try_except {A} (m : M A) catches handler :
  emits P m -> (forall e, emits P (handler e)) -> emits P (try_except m catches handler).
Proof.
  unfold emits, world_of. intros Hm Hh w. unfold try_except.
  destruct (Hm w) as [x [Ex Px]].
  destruct (m w) as [[a | e] w']; simpl in Ex.
  - exists x. now split.
  - destruct (catches e).
    + destruct (Hh e w') as [y [Ey Py]].
      exists (x ++ y)%list. rewrite Ey, Ex, app_assoc, forallb_app, Px, Py. now split.
    + exists x. now split.
Qed.

Lemma emits_record_call (c : call) : P c = true -> emits P (record_call c).
Proof. intros Hc w. exists [c]. simpl. now rewrite Hc. Qed.

Lemma emits_lift_result {A} (r : exn + A) : emits P (lift_result r).
Proof. destruct r; [apply emits_raise | apply emits_ret]. Qed.

Lemma emits_get (v : value) (k : string) (d : value) : emits P (get v k d).
Proof. destruct v; first [apply emits_ret | apply emits_raise]. Qed.

End Emits.

(** Breaks a computation down to the calls it records. *)
Ltac emits_steps :=
  repeat first
    [ apply emits_ret
    | apply emits_raise
    | apply emits_lift_result
    | apply emits_get
    | apply emits_record_call; reflexivity
    | apply emits_bind
    | apply emits_try_except
    | match goal with
      | |- forall _, _ => intro
      | |- emits _ (if ?c then _ else _) => destruct c
      | |- emits _ (match ?x with _ => _ end) => destruct x
      end ].

Lemma send_file_by_url_emits :
  forall env gc chat_id file_url filename caption sender_name sender_username,
    emits not_text_send
      (GreenApiClient.send_file_by_url env gc chat_id file_url filename
         caption sender_name sender_username).
Proof.
  intros. unfold GreenApiClient.send_file_by_url, GreenApiClient.post.
  emits_steps.
Qed.

Lemma get_file_url_emits :
  forall env self file_id,
    emits not_text_send (TelegramWebhookHandler.get_file_url env self file_id).
Proof.
  intros. unfold TelegramWebhookHandler.get_file_url. emits_steps.
Qed.

(** The handlers registered after the text handler send files only. *)
Lemma attachment_handlers_emit :
  forall env gc self m,
    emits not_text_send
      (TelegramWebhookHandler.trigger
         (tl (TelegramWebhookHandler._register_handlers env gc self)) m).
Proof.
  intros env gc self m. simpl.
  pose proof (send_file_by_url_emits env gc) as Hsend.
  pose proof (get_file_url_emits env self) as Hurl.
  repeat match goal with
         | |- emits _ (if ?c then _ else _) => destruct c
         end;
    try apply emits_ret;
    unfold TelegramWebhookHandler._handle_photo_message,
      TelegramWebhookHandler._handle_video_message,
      TelegramWebhookHandler._handle_document_message,
      TelegramWebhookHandler._handle_voice_message,
      TelegramWebhookHandler._handle_audio_message,
      TelegramWebhookHandler.last_photo, TelegramWebhookHandler.attr_of,
      GreenApiClient.send_photo, GreenApiClient.send_video,
      GreenApiClient.send_document;
    destruct (TelegramWebhookHandler._get_sender_info m);
    repeat first
      [ apply Hsend
      | apply Hurl
      | apply emits_ret
      | apply emits_raise
      | apply emits_bind
      | apply emits_try_except
      | match goal with
        | |- forall _, _ => intro
        | |- emits _ (if ?c then _ else _) => destruct c
        | |- emits _ (match ?x with _ => _ end) => destruct x
        end ].
Qed.

(** C10.  When the text of a Telegram message starts with [/], the filter
    of the text handler rejects it, so the dispatcher goes on to the
    handlers registered after it, and handling the update sends no text to
    Max: every call it makes is something else than a [sendMessage]. *)
Theorem command_text_is_not_relayed :
  forall (env : Env) (gc : GreenApiClient.t) (self : TelegramWebhookHandler.t)
         (update_data : value) (m : Aiogram.Message) (body : string) (w : World),
    parse_update env update_data = inr (Aiogram.mkUpdate (Some m)) ->
    Aiogram.text m = Some body ->
    startswith "/" body = true ->
    TelegramWebhookHandler.text_filter m = false
    /\ TelegramWebhookHandler.feed_update env gc self (Aiogram.mkUpdate (Some m)) w
       = TelegramWebhookHandler.trigger
           (tl (TelegramWebhookHandler._register_handlers env gc self)) m w
    /\ exists extra,
         calls (world_of (TelegramWebhookHandler.handle_update env gc self update_data w))
         = List.app (calls w) extra
         /\ forallb (fun c => negb (is_text_send c)) extra = true.
Proof.
  intros env gc self update_data m body w Hparse Htext Hslash.
  assert (Hfilter : TelegramWebhookHandler.text_filter m = false).
  { unfold TelegramWebhookHandler.text_filter. rewrite Htext, Hslash.
    now rewrite andb_false_r. }
  assert (Hfeed : forall w0,
             TelegramWebhookHandler.feed_update env gc self (Aiogram.mkUpdate (Some m)) w0
             = TelegramWebhookHandler.trigger
                 (tl (TelegramWebhookHandler._register_handlers env gc self)) m w0).
  { intros w0. unfold TelegramWebhookHandler.feed_update; simpl.
    now rewrite Hfilter. }
  split; [exact Hfilter|]. split; [apply Hfeed|].
  assert (Hemits : emits not_text_send
                     (try_except
                        (TelegramWebhookHandler.trigger
                           (tl (TelegramWebhookHandler._register_handlers env gc self)) m
                         ;;; ret status_success)
                        any_Exception (fun e => ret (status_error e)))).
  { apply emits_try_except; [|intro; apply emits_ret].
    apply emits_bind; [apply attachment_handlers_emit | intro; apply emits_ret]. }
  assert (Hrun : TelegramWebhookHandler.handle_update env gc self update_data w
                 = try_except
                     (TelegramWebhookHandler.trigger
                        (tl (TelegramWebhookHandler._register_handlers env gc self)) m
                      ;;; ret status_success)
                     any_Exception (fun e => ret (status_error e)) w).
  { unfold TelegramWebhookHandler.handle_update.
    apply try_except_same.
    unfold lift_result. rewrite Hparse, bind_ret.
    unfold bind. now rewrite Hfeed. }
  rewrite Hrun. exact (Hemits w).
Qed.

Lemma command_text_is_not_relayed_witness :
  TelegramWebhookHandler.text_filter (Sample.text_message 7 "/start") = false
  /\ TelegramWebhookHandler.feed_update
       (Sample.env_with_update (Aiogram.mkUpdate (Some (Sample.text_message 7 "/start"))))
       Sample.green_api_client Sample.telegram_webhook_handler
       (Aiogram.mkUpdate (Some (Sample.text_message 7 "/start"))) Sample.world
     = TelegramWebhookHandler.trigger
         (tl (TelegramWebhookHandler._register_handlers
                (Sample.env_with_update
                   (Aiogram.mkUpdate (Some (Sample.text_message 7 "/start"))))
                Sample.green_api_client Sample.telegram_webhook_handler))
         (Sample.text_message 7 "/start") Sample.world
  /\ exists extra,
       calls (world_of (TelegramWebhookHandler.handle_update
                          (Sample.env_with_update
                             (Aiogram.mkUpdate (Some (Sample.text_message 7 "/start"))))
                          Sample.green_api_client Sample.telegram_webhook_handler
                          Sample.update_data Sample.world))
       = List.app (calls Sample.world) extra
       /\ forallb (fun c => negb (is_text_send c)) extra = true.
Proof.
  apply (command_text_is_not_relayed
           (Sample.env_with_update (Aiogram.mkUpdate (Some (Sample.text_message 7 "/start"))))
           Sample.green_api_client Sample.telegram_webhook_handler
           Sample.update_data (Sample.text_message 7 "/start") "/start" Sample.world);
    reflexivity.
Defined.

(* ================================================================= *)
(** * Further properties: strings and chat identifiers *)

Lemma append_assoc (a b c : string) : (a ++ b) ++ c = a ++ (b ++ c).
Proof. induction a as [|x a IH]; simpl; [reflexivity | now rewrite IH]. Qed.

Lemma prefix_other_head (c a : ascii) (old' s : string) :
  Ascii.eqb a c = false -> String.prefix (String c old') (String a s) = false.
Proof.
  intros H. simpl. destruct (ascii_dec c a) as [E | _]; [|reflexivity].
  subst a. now rewrite Ascii.eqb_refl in H.
Qed.

(** A string in which the first character of [old] does not occur is left
    as it is by [replace]. *)
Lemma replace_without_occurrence (c : ascii) (old' new s : string) :
  occurs c s = false -> replace (String c old') new s = s.
Proof.
  unfold replace. induction s as [|a s IH]; intros H; [reflexivity|].
  simpl in H. apply orb_false_iff in H. destruct H as [Ha Hs].
  cbn [replace_from]. rewrite (prefix_other_head c a old' s Ha).
  now rewrite (IH Hs).
Qed.

(** A suffix [tail] is removed, or kept, as it would be on its own, when
    the first character of [old] does not occur before it. *)
Lemma replace_after_clean_prefix (c : ascii) (old' new s tail : string) :
  occurs c s = false ->
  replace (String c old') new (s ++ tail) = s ++ replace (String c old') new tail.
Proof.
  unfold replace. induction s as [|a s IH]; intros H; [reflexivity|].
  simpl in H. apply orb_false_iff in H. destruct H as [Ha Hs].
  cbn [append replace_from]. rewrite (prefix_other_head c a old' _ Ha).
  now rewrite (IH Hs).
Qed.

Lemma append_empty (s : string) : s ++ "" = s.
Proof. induction s as [|a s IH]; simpl; [reflexivity | now rewrite IH]. Qed.

(** X1.  [_format_chat_id] returns a chat identifier without [@] as it is,
    and removes a trailing [@c.us] or [@g.us] from one. *)
Theorem format_chat_id_cleans_suffix :
  forall chat_id : string,
    occurs "@"%char chat_id = false ->
    GreenApiClient._format_chat_id chat_id = chat_id
    /\ GreenApiClient._format_chat_id (chat_id ++ "@c.us") = chat_id
    /\ GreenApiClient._format_chat_id (chat_id ++ "@g.us") = chat_id.
Proof.
  intros chat_id H. unfold GreenApiClient._format_chat_id.
  repeat split.
  - rewrite (replace_without_occurrence "@"%char "c.us" "" chat_id H).
    now apply replace_without_occurrence.
  - rewrite (replace_after_clean_prefix "@"%char "c.us" "" chat_id "@c.us" H).
    change (replace "@c.us" "" "@c.us") with "".
    rewrite append_empty. now apply replace_without_occurrence.
  - rewrite (replace_after_clean_prefix "@"%char "c.us" "" chat_id "@g.us" H).
    change (replace "@c.us" "" "@g.us") with "@g.us".
    rewrite (replace_after_clean_prefix "@"%char "g.us" "" chat_id "@g.us" H).
    change (replace "@g.us" "" "@g.us") with "".
    apply append_empty.
Qed.

Lemma format_chat_id_cleans_suffix_witness :
  GreenApiClient._format_chat_id "-69020002426896" = "-69020002426896"
  /\ GreenApiClient._format_chat_id ("-69020002426896" ++ "@c.us") = "-69020002426896"
  /\ GreenApiClient._format_chat_id ("-69020002426896" ++ "@g.us") = "-69020002426896".
Proof.
  apply (format_chat_id_cleans_suffix "-69020002426896"). reflexivity.
Defined.

(* ================================================================= *)
(** * Further properties: the formatters *)

(** X2.  Both formatters keep the text they are given at the end of what
    they return, whoever the sender is: the text is never cut or changed. *)
Theorem format_message_ends_with_text :
  forall (env : Env) (text : string) (sender_name sender_phone : value)
         (name handle : option string),
    (exists header,
       TelegramClient._format_message env (JStr text) sender_name sender_phone
       = JStr (header ++ text))
    /\ (exists header,
          GreenApiClient._format_message text name handle = header ++ text).
Proof.
  intros env text sender_name sender_phone name handle. split.
  - unfold TelegramClient._format_message.
    destruct (truthy sender_name).
    + eexists. simpl fmt. rewrite <- !append_assoc. reflexivity.
    + now exists "".
  - unfold GreenApiClient._format_message.
    destruct (truthy_opt name), (truthy_opt handle); cbn [List.app].
    all: try (eexists; rewrite <- !append_assoc; reflexivity).
    now exists "".
Qed.



(* ================================================================= *)
(** * Further properties: downloads and temporary files *)

Lemma map_filter_other (name content : string) (l : list (string * string)) :
  map (fun f => if fst f =? name then (name, content) else f)
      (filter (fun f => negb (fst f =? name)) l)
  = filter (fun f => negb (fst f =? name)) l.
Proof.
  induction l as [|f l IH]; [reflexivity|]. simpl.
  destruct (fst f =? name) eqn:E; simpl; [exact IH|].
  now rewrite E, IH.
Qed.

Lemma filter_filter_other (name : string) (l : list (string * string)) :
  filter (fun f => negb (fst f =? name)) (filter (fun f => negb (fst f =? name)) l)
  = filter (fun f => negb (fst f =? name)) l.
Proof.
  induction l as [|f l IH]; [reflexivity|]. simpl.
  destruct (fst f =? name) eqn:E; simpl; [exact IH|].
  now rewrite E, IH.
Qed.

Lemma file_gone_after_filter (name : string) (l : list (string * string)) :
  existsb (fun f => fst f =? name) (filter (fun f => negb (fst f =? name)) l) = false.
Proof.
  induction l as [|f l IH]; [reflexivity|]. simpl.
  destruct (fst f =? name) eqn:E; simpl; [exact IH|].
  now rewrite E, IH.
Qed.

Lemma download_file_ok (env : Env) (u content : string) (w : World) :
  http_get env (JStr u) = GetResponse 200 (inr content) ->
  TelegramClient._download_file env (JStr u) w
  = (Ret (Some (tmp_name env (tmp_count w) (splitext_ext u))),
     after_download env u content w).
Proof.
  intros H.
  unfold TelegramClient._download_file, try_except, bind, record_call.
  rewrite H. simpl.
  unfold after_download. simpl.
  rewrite String.eqb_refl, map_filter_other. reflexivity.
Qed.

Lemma download_file_fails (env : Env) (url : value) (w : World) :
  (exists e, http_get env url = GetRaises e)
  \/ (exists status body,
        http_get env url = GetResponse status body /\ status <> 200%Z) ->
  TelegramClient._download_file env url w = (Ret None, after_call (HttpGet url) w).
Proof.
  intros [[e H] | (status & body & H & Hs)];
    unfold TelegramClient._download_file, try_except, bind, record_call;
    rewrite H; simpl; [reflexivity|].
  apply Z.eqb_neq in Hs. now rewrite Hs.
Qed.

Lemma try_except_any_returns {A} (m : M A) (handler : exn -> A) (w : World) :
  exists a, result_of (try_except m any_Exception (fun e => ret (handler e)) w) = Ret a.
Proof.
  unfold try_except, result_of. destruct (m w) as [[a | e] w']; simpl; eauto.
Qed.

(** X4.  [_download_file] never raises, whatever the URL is and whatever
    the server does: it returns a path or [None]. *)
Theorem download_file_never_raises :
  forall (env : Env) (url : value) (w : World),
    exists path, result_of (TelegramClient._download_file env url w) = Ret path.
Proof.
  intros env url w. unfold TelegramClient._download_file.
  apply (try_except_any_returns _ (fun _ => None)).
Qed.

(** X5.  When the download raises or is answered with another status than
    200, no temporary file is created, and [send_photo], [send_video] and
    [send_document] return [False] without calling the Bot API: the request
    for the file is the only call made. *)
Theorem failed_download_sends_nothing :
  forall (env : Env) (self : TelegramClient.t)
         (url filename caption sender_name sender_phone : value) (w : World),
    ((exists e, http_get env url = GetRaises e)
     \/ (exists status body,
           http_get env url = GetResponse status body /\ status <> 200%Z)) ->
    TelegramClient._download_file env url w = (Ret None, after_call (HttpGet url) w)
    /\ TelegramClient.send_photo env self url caption sender_name sender_phone w
       = (Ret false, after_call (HttpGet url) w)
    /\ TelegramClient.send_video env self url caption sender_name sender_phone w
       = (Ret false, after_call (HttpGet url) w)
    /\ TelegramClient.send_document env self url filename caption
         sender_name sender_phone w
       = (Ret false, after_call (HttpGet url) w).
Proof.
  intros env self url filename caption sender_name sender_phone w H.
  pose proof (download_file_fails env url w H) as Hd.
  split; [exact Hd|].
  unfold TelegramClient.send_photo, TelegramClient.send_video,
    TelegramClient.send_document.
  repeat split; apply try_except_Ret;
    now rewrite (bind_Ret _ _ w _ None Hd).
Qed.

Lemma failed_download_sends_nothing_witness :
  TelegramClient.send_document
    {| py_str := py_str Sample.env;
       http_get := fun _ => GetResponse 404 (inr "Not Found");
       tmp_name := tmp_name Sample.env;
       bot_api := bot_api Sample.env;
       bot_get_file := bot_get_file Sample.env;
       green_post := green_post Sample.env;
       parse_update := parse_update Sample.env |}
    Sample.telegram_client (JStr "http://x/doc.pdf") (JStr "report.pdf")
    JNull JNull JNull Sample.world
  = (Ret false, after_call (HttpGet (JStr "http://x/doc.pdf")) Sample.world).
Proof.
  eapply (failed_download_sends_nothing
            {| py_str := py_str Sample.env;
               http_get := fun _ => GetResponse 404 (inr "Not Found");
               tmp_name := tmp_name Sample.env;
               bot_api := bot_api Sample.env;
               bot_get_file := bot_get_file Sample.env;
               green_post := green_post Sample.env;
               parse_update := parse_update Sample.env |}).
  right. exists 404%Z, (inr "Not Found"). split; [reflexivity | discriminate].
Defined.

Lemma or_default_Some (s : string) : or_default (Some s) "" = s.
Proof.
  unfold or_default. simpl. destruct (s =? "") eqn:E; [|reflexivity].
  apply String.eqb_eq in E. now subst s.
Qed.

(** The run of a sender once the download has succeeded, for each answer of
    the Bot API. *)
Lemma send_after_download :
  forall (env : Env) (u content : string) (c : call) (logged : value) (w : World),
    http_get env (JStr u) = GetResponse 200 (inr content) ->
    tmp_name env (tmp_count w) (splitext_ext u) <> "" ->
    let name := tmp_name env (tmp_count w) (splitext_ext u) in
    forall body : option string -> M bool,
      (forall w1, body (Some name) w1
         = (TelegramClient.bot_call env c ;;; unlink name ;;; slice_check logged ;;; ret true) w1) ->
      (exists s, logged = JStr s) ->
      let run :=
        try_except
          (temp_file <- TelegramClient._download_file env (JStr u) ;;
           if truthy_opt temp_file then body temp_file else ret false)
          is_TelegramAPIError (fun _ => ret false) w in
      match bot_api env c with
      | None =>
          result_of run = Ret true
          /\ file_exists name (world_of run) = false
      | Some e =>
          result_of run = (if is_TelegramAPIError e then Ret false else Raise e)
          /\ file_content name (world_of run) = Some content
      end
      /\ calls (world_of run) = (calls w ++ [HttpGet (JStr u); c])%list.
Proof.
  intros env u content c logged w Hget Hname name body Hbody [s Hlogged] run.
  subst run name. unfold try_except.
  rewrite (bind_Ret _ _ w _ _ (download_file_ok env u content w Hget)).
  assert (Ht : truthy_opt (Some (tmp_name env (tmp_count w) (splitext_ext u))) = true).
  { simpl. apply String.eqb_neq in Hname. now rewrite Hname. }
  rewrite Ht, Hbody.
  unfold TelegramClient.bot_call, bind, record_call, unlink, file_exists,
    file_content, after_download, result_of, world_of.
  cbv zeta. simpl.
  set (name := tmp_name env (tmp_count w) (splitext_ext u)) in *.
  destruct (bot_api env c) as [e|]; simpl.
  - destruct (is_TelegramAPIError e); simpl;
      (split; [split; [reflexivity|]|]).
    all: try (now rewrite String.eqb_refl).
    all: now rewrite <- app_assoc.
  - rewrite String.eqb_refl; simpl. subst logged; simpl.
    split; [split; [reflexivity|]|].
    + rewrite filter_filter_other. apply file_gone_after_filter.
    + now rewrite <- app_assoc.
Qed.

(** X6.  When the download succeeds and the Bot API accepts the send,
    [send_photo], [send_video] and [send_document] return [True], the
    temporary file is gone afterwards, and two calls were made: the request
    for the file and the send of the temporary file to the channel, with
    parse mode HTML. *)
Theorem successful_send_removes_temporary_file :
  forall (env : Env) (self : TelegramClient.t) (u content : string)
         (filename caption sender_name sender_phone : value) (w : World),
    http_get env (JStr u) = GetResponse 200 (inr content) ->
    tmp_name env (tmp_count w) (splitext_ext u) <> "" ->
    let name := tmp_name env (tmp_count w) (splitext_ext u) in
    (bot_api env (photo_call env self name caption sender_name sender_phone) = None ->
     let run := TelegramClient.send_photo env self (JStr u) caption
                  sender_name sender_phone w in
     result_of run = Ret true
     /\ file_exists name (world_of run) = false
     /\ calls (world_of run)
        = (calls w ++ [HttpGet (JStr u);
                       photo_call env self name caption sender_name sender_phone])%list)
    /\ (bot_api env (video_call env self name caption sender_name sender_phone) = None ->
        let run := TelegramClient.send_video env self (JStr u) caption
                     sender_name sender_phone w in
        result_of run = Ret true
        /\ file_exists name (world_of run) = false
        /\ calls (world_of run)
           = (calls w ++ [HttpGet (JStr u);
                          video_call env self name caption sender_name sender_phone])%list)
    /\ (bot_api env (document_call env self name filename caption
                       sender_name sender_phone) = None ->
        let run := TelegramClient.send_document env self (JStr u) filename caption
                     sender_name sender_phone w in
        result_of run = Ret true
        /\ file_exists name (world_of run) = false
        /\ calls (world_of run)
           = (calls w ++ [HttpGet (JStr u);
                          document_call env self name filename caption
                            sender_name sender_phone])%list).
Proof.
  intros env self u content filename caption sender_name sender_phone w Hget Hname name.
  repeat match goal with |- _ /\ _ => split end;
    intros Hbot run; subst run;
    unfold TelegramClient.send_photo, TelegramClient.send_video,
      TelegramClient.send_document;
    match type of Hbot with
    | bot_api _ ?c = _ =>
        match goal with
        | |- context [bind (TelegramClient._download_file _ _)
                           (fun t => if truthy_opt t then @?body t else _)] =>
            pose proof (send_after_download env u content c (JStr u) w Hget Hname
                          body) as Hrun
        end
    end;
    cbv zeta beta in Hrun; rewrite or_default_Some in Hrun;
    specialize (Hrun (fun _ => eq_refl) (ex_intro _ u eq_refl));
    rewrite Hbot in Hrun;
    destruct Hrun as [[Hresult Hfile] Hcalls];
    repeat split; assumption.
Qed.

Lemma successful_send_removes_temporary_file_witness :
  let run := TelegramClient.send_document Sample.env Sample.telegram_client
               (JStr "http://x/doc.pdf") (JStr "report.pdf") JNull JNull JNull
               Sample.world in
  result_of run = Ret true
  /\ file_exists "/tmp/tmp0.pdf" (world_of run) = false
  /\ calls (world_of run)
     = [HttpGet (JStr "http://x/doc.pdf");
        document_call Sample.env Sample.telegram_client "/tmp/tmp0.pdf"
          (JStr "report.pdf") JNull JNull JNull].
Proof.
  apply (successful_send_removes_temporary_file
           Sample.env Sample.telegram_client "http://x/doc.pdf" "content"
           (JStr "report.pdf") JNull JNull JNull Sample.world);
    [reflexivity | discriminate | reflexivity].
Defined.

(** X7.  When the download succeeds and the Bot API raises, [send_photo],
    [send_video] and [send_document] return [False] for a
    [TelegramAPIError] and let any other exception through; either way the
    temporary file is still there, with the downloaded content. *)
Theorem failed_send_leaves_temporary_file :
  forall (env : Env) (self : TelegramClient.t) (u content : string)
         (filename caption sender_name sender_phone : value) (e : exn) (w : World),
    http_get env (JStr u) = GetResponse 200 (inr content) ->
    tmp_name env (tmp_count w) (splitext_ext u) <> "" ->
    let name := tmp_name env (tmp_count w) (splitext_ext u) in
    (bot_api env (photo_call env self name caption sender_name sender_phone) = Some e ->
     let run := TelegramClient.send_photo env self (JStr u) caption
                  sender_name sender_phone w in
     result_of run = (if is_TelegramAPIError e then Ret false else Raise e)
     /\ file_content name (world_of run) = Some content)
    /\ (bot_api env (video_call env self name caption sender_name sender_phone) = Some e ->
        let run := TelegramClient.send_video env self (JStr u) caption
                     sender_name sender_phone w in
        result_of run = (if is_TelegramAPIError e then Ret false else Raise e)
        /\ file_content name (world_of run) = Some content)
    /\ (bot_api env (document_call env self name filename caption
                       sender_name sender_phone) = Some e ->
        let run := TelegramClient.send_document env self (JStr u) filename caption
                     sender_name sender_phone w in
        result_of run = (if is_TelegramAPIError e then Ret false else Raise e)
        /\ file_content name (world_of run) = Some content).
Proof.
  intros env self u content filename caption sender_name sender_phone e w Hget Hname name.
  repeat match goal with |- _ /\ _ => split end;
    intros Hbot run; subst run;
    unfold TelegramClient.send_photo, TelegramClient.send_video,
      TelegramClient.send_document;
    match type of Hbot with
    | bot_api _ ?c = _ =>
        match goal with
        | |- context [bind (TelegramClient._download_file _ _)
                           (fun t => if truthy_opt t then @?body t else _)] =>
            pose proof (send_after_download env u content c (JStr u) w Hget Hname
                          body) as Hrun
        end
    end;
    cbv zeta beta in Hrun; rewrite or_default_Some in Hrun;
    specialize (Hrun (fun _ => eq_refl) (ex_intro _ u eq_refl));
    rewrite Hbot in Hrun;
    destruct Hrun as [[Hresult Hfile] Hcalls];
    repeat split; assumption.
Qed.

Lemma failed_send_leaves_temporary_file_witness :
  let run := TelegramClient.send_photo Sample.env_bot_raises Sample.telegram_client
               (JStr "http://x/p.jpg") JNull JNull JNull Sample.world in
  result_of run = Ret false
  /\ file_content "/tmp/tmp0.jpg" (world_of run) = Some "content".
Proof.
  apply (failed_send_leaves_temporary_file
           Sample.env_bot_raises Sample.telegram_client "http://x/p.jpg" "content"
           JNull JNull JNull JNull
           (Exn TelegramAPIError "Bad Request: chat not found") Sample.world);
    [reflexivity | discriminate | reflexivity].
Defined.

(* ================================================================= *)
(** * Further properties: the GREEN-API client *)

Lemma post_run (env : Env) (url : string) (payload : list (string * string)) (w : World) :
  try_except (GreenApiClient.post env url payload) any_Exception (fun _ => ret false) w
  = (Ret (accepted (green_post env url payload)), after_call (MaxPost url payload) w).
Proof.
  unfold GreenApiClient.post, try_except, bind, record_call, after_call, accepted.
  simpl.
  destruct (green_post env url payload) as [e | status [e | result]]; simpl;
    try reflexivity.
  - destruct (status =? 200)%Z; reflexivity.
  - destruct (status =? 200)%Z, result; reflexivity.
Qed.

(** X8.  [send_text_message] and [send_file_by_url] of the GREEN-API client
    never raise.  Each makes exactly one request and returns [True] exactly
    when GREEN-API answers it with status 200 and a JSON object; another
    status, a body that does not decode or is no object, and an exception of
    the transport all give [False]. *)
Theorem green_api_send_returns_whether_accepted :
  forall (env : Env) (gc : GreenApiClient.t)
         (chat_id text file_url filename : string)
         (caption sender_name sender_username : option string) (w : World),
    (let url := GreenApiClient.base_url gc ++ "/sendMessage/"
                ++ GreenApiClient.api_token gc in
     let payload :=
       [("chatId", GreenApiClient._format_chat_id chat_id);
        ("message", GreenApiClient._format_message text sender_name sender_username)] in
     GreenApiClient.send_text_message env gc chat_id text sender_name sender_username w
     = (Ret (accepted (green_post env url payload)), after_call (MaxPost url payload) w))
    /\ (let url := GreenApiClient.base_url gc ++ "/sendFileByUrl/"
                   ++ GreenApiClient.api_token gc in
        let payload :=
          [("chatId", GreenApiClient._format_chat_id chat_id);
           ("urlFile", file_url);
           ("fileName", filename);
           ("caption",
            GreenApiClient._format_message (or_default caption ("📎 " ++ filename))
              sender_name sender_username)] in
        GreenApiClient.send_file_by_url env gc chat_id file_url filename caption
          sender_name sender_username w
        = (Ret (accepted (green_post env url payload)),
           after_call (MaxPost url payload) w)).
Proof.
  intros. split; cbv zeta;
    unfold GreenApiClient.send_text_message, GreenApiClient.send_file_by_url;
    apply post_run.
Qed.

Lemma or_default_twice (o : option string) (d d' : string) :
  d <> "" -> or_default (Some (or_default o d)) d' = or_default o d.
Proof.
  intros Hd. unfold or_default at 1. 
  assert (H : truthy_opt (Some (or_default o d)) = true).
  { simpl. unfold or_default. destruct (truthy_opt o) eqn:E.
    - destruct o as [s|]; [exact E | discriminate E].
    - apply String.eqb_neq in Hd. now rewrite Hd. }
  now rewrite H.
Qed.

(** X9.  [send_photo], [send_video] and [send_document] of the GREEN-API
    client post the file under the names [photo.jpg], [video.mp4] and the
    given file name.  The caption is the given one when it is not empty and
    the default of the kind otherwise, with the sender header in front: the
    paperclip default of [send_file_by_url] is never used through them. *)
Theorem green_api_file_senders_post :
  forall (env : Env) (gc : GreenApiClient.t) (chat_id url filename : string)
         (caption sender_name sender_username : option string) (w : World),
    calls (world_of (GreenApiClient.send_photo env gc chat_id url caption
                       sender_name sender_username w))
    = (calls w ++
       [file_post gc chat_id url "photo.jpg"
          (GreenApiClient._format_message (or_default caption "📷 Photo")
             sender_name sender_username)])%list
    /\ calls (world_of (GreenApiClient.send_video env gc chat_id url caption
                          sender_name sender_username w))
       = (calls w ++
          [file_post gc chat_id url "video.mp4"
             (GreenApiClient._format_message (or_default caption "🎥 Video")
                sender_name sender_username)])%list
    /\ calls (world_of (GreenApiClient.send_document env gc chat_id url filename caption
                          sender_name sender_username w))
       = (calls w ++
          [file_post gc chat_id url filename
             (GreenApiClient._format_message
                (or_default caption (String.append "📄 " filename))
                sender_name sender_username)])%list.
Proof.
  intros env gc chat_id url filename caption sender_name sender_username w.
  unfold GreenApiClient.send_photo, GreenApiClient.send_video,
    GreenApiClient.send_document, file_post.
  repeat split.
  all: unfold GreenApiClient.send_file_by_url; rewrite post_run.
  all: unfold world_of, after_call; simpl calls.
  all: rewrite or_default_twice; [reflexivity | discriminate].
Qed.

(* ================================================================= *)
(** * Further properties: the Telegram webhook handler *)

Lemma bind_ret_eta {A B} (a : A) (k : A -> M B) : bind (ret a) k = k a.
Proof. reflexivity. Qed.

Lemma try_except_unit (m : M unit) (w : World) :
  exists w', try_except m any_Exception (fun _ => ret tt) w = (Ret tt, w').
Proof.
  unfold try_except, any_Exception, ret.
  destruct (m w) as [[[] | e] w']; eauto.
Qed.

(** Whatever the dispatcher does with an update, it does not raise: every
    registered handler keeps its exceptions to itself. *)
Lemma feed_update_returns :
  forall env gc self update w,
    exists w', TelegramWebhookHandler.feed_update env gc self update w = (Ret tt, w').
Proof.
  intros env gc self update w. unfold TelegramWebhookHandler.feed_update.
  destruct (Aiogram.message update) as [m|]; [|now exists w].
  simpl.
  repeat match goal with
         | |- exists _, (if ?c then _ else _) _ = _ => destruct c
         end;
    try apply try_except_unit.
  now exists w.
Qed.

(** X10.  [handle_update] answers [success] for every update that parses,
    whatever happened while it was relayed: a failure of GREEN-API or of
    [get_file] is not reported.  It answers [error], having made no call,
    exactly when the update does not parse. *)
Theorem handle_update_reports_parse_errors_only :
  forall (env : Env) (gc : GreenApiClient.t) (self : TelegramWebhookHandler.t)
         (update_data : value) (w : World),
    match parse_update env update_data with
    | inr update =>
        result_of (TelegramWebhookHandler.handle_update env gc self update_data w)
        = Ret status_success
    | inl e =>
        TelegramWebhookHandler.handle_update env gc self update_data w
        = (Ret (status_error e), w)
    end.
Proof.
  intros env gc self update_data w.
  unfold TelegramWebhookHandler.handle_update, lift_result.
  destruct (parse_update env update_data) as [e | update].
  - reflexivity.
  - destruct (feed_update_returns env gc self update w) as [w' Hfeed].
    unfold try_except. rewrite bind_ret.
    now rewrite (bind_Ret _ _ w w' tt Hfeed).
Qed.

(** X11.  A photo from a chat the filter lets through is relayed from its
    last size: the handler asks the Bot API for that file and posts to
    GREEN-API, under the name [photo.jpg], a URL that carries the bot token
    and the file path.  When [get_file] raises nothing is posted. *)
Theorem telegram_photo_relayed_from_last_size :
  forall (env : Env) (gc : GreenApiClient.t) (self : TelegramWebhookHandler.t)
         (m : Aiogram.Message) (sizes : list Aiogram.File) (largest : Aiogram.File)
         (w : World),
    Aiogram.photo m = Some (sizes ++ [largest])%list ->
    TelegramWebhookHandler.should_process_message self (Aiogram.chat_id m) = true ->
    let run := TelegramWebhookHandler._handle_photo_message env gc self m w in
    result_of run = Ret tt
    /\ match bot_get_file env (Aiogram.file_id largest) with
       | inr file_path =>
           calls (world_of run)
           = (calls w ++
              [BotGetFile (Aiogram.file_id largest);
               file_post gc (TelegramWebhookHandler.max_target_chat self)
                 (String.append "https://api.telegram.org/file/bot"
                    (String.append (TelegramWebhookHandler.bot_token self)
                       (String.append "/" file_path)))
                 "photo.jpg"
                 (GreenApiClient._format_message
                    (or_default (Aiogram.caption m) "📷 Photo")
                    (fst (TelegramWebhookHandler._get_sender_info m))
                    (snd (TelegramWebhookHandler._get_sender_info m)))])%list
       | inl _ =>
           calls (world_of run) = (calls w ++ [BotGetFile (Aiogram.file_id largest)])%list
       end.
Proof.
  intros env gc self m sizes largest w Hphoto Hyes run. subst run.
  unfold TelegramWebhookHandler._handle_photo_message.
  rewrite Hyes; cbn [negb].
  destruct (TelegramWebhookHandler._get_sender_info m) as [sender_name sender_username].
  cbn [fst snd].
  assert (Hlast : TelegramWebhookHandler.last_photo (Aiogram.photo m) w
                  = (Ret largest, w)).
  { unfold TelegramWebhookHandler.last_photo.
    now rewrite Hphoto, rev_app_distr. }
  unfold TelegramWebhookHandler.get_file_url.
  destruct (bot_get_file env (Aiogram.file_id largest)) as [e | file_path] eqn:Hfile.
  - assert (Hrun : forall k : string -> M unit,
               (photo <- TelegramWebhookHandler.last_photo (Aiogram.photo m) ;;
                file_url <- (record_call (BotGetFile (Aiogram.file_id photo)) ;;;
                             file_path <- lift_result
                                            (bot_get_file env (Aiogram.file_id photo)) ;;
                             ret ("https://api.telegram.org/file/bot"
                                  ++ TelegramWebhookHandler.bot_token self
                                  ++ "/" ++ file_path)) ;;
                k file_url) w
               = (Raise e, after_call (BotGetFile (Aiogram.file_id largest)) w)).
    { intros k. rewrite (bind_Ret _ _ w w largest Hlast).
      apply bind_Raise. unfold bind, record_call. simpl. now rewrite Hfile. }
    rewrite (try_except_Raise _ _ _ w _ e (Hrun _) eq_refl).
    split; reflexivity.
  - assert (Hurl : (record_call (BotGetFile (Aiogram.file_id largest)) ;;;
                    file_path <- lift_result
                                   (bot_get_file env (Aiogram.file_id largest)) ;;
                    ret ("https://api.telegram.org/file/bot"
                         ++ TelegramWebhookHandler.bot_token self
                         ++ "/" ++ file_path)) w
                   = (Ret ("https://api.telegram.org/file/bot"
                           ++ TelegramWebhookHandler.bot_token self
                           ++ "/" ++ file_path),
                      after_call (BotGetFile (Aiogram.file_id largest)) w)).
    { unfold bind, record_call. simpl. now rewrite Hfile. }
    erewrite try_except_Ret.
    2:{ rewrite (bind_Ret _ _ w w largest Hlast).
        rewrite (bind_Ret _ _ w _ _ Hurl).
        unfold GreenApiClient.send_photo, GreenApiClient.send_file_by_url.
        rewrite (bind_Ret _ _ _ _ _ (post_run env _ _ _)).
        reflexivity. }
    unfold result_of, world_of, after_call, file_post; simpl.
    split; [reflexivity|].
    rewrite or_default_twice by discriminate.
    now rewrite <- app_assoc.
Qed.

(* ================================================================= *)
(** * Further properties: the endpoints *)

Lemma returns_ret {A} (P : A -> Prop) (a : A) : P a -> returns P (ret a).
Proof. intros H w a' w' E. unfold ret in E. now inversion E; subst. Qed.

Lemma returns_bind {A B} (P : B -> Prop) (m : M A) (k : A -> M B) :
  (forall a, returns P (k a)) -> returns P (bind m k).
Proof.
  intros Hk w b w' E. unfold bind in E.
  destruct (m w) as [[a | e] w1]; [|discriminate E].
  exact (Hk a w1 b w' E).
Qed.


(** What an endpoint answers when its body returns responses in [P] and its
    [except Exception] answers 500. *)
Lemma endpoint_answers {P : Main.Response -> Prop} (body : M Main.Response) (w : World) :
  returns P body ->
  (forall e, P (Main.JSONResponse (status_error e) 500)) ->
  exists response w',
    try_except body any_Exception
      (fun e => ret (Main.JSONResponse (status_error e) 500)) w
    = (Ret response, w')
    /\ P response.
Proof.
  intros Hbody H500. unfold try_except, any_Exception, ret.
  destruct (body w) as [[a | e] w'] eqn:E; eauto.
Qed.

(** X12.  The two webhook endpoints never raise, and the status of what
    they answer is 200 or 500: there is no request they answer with 401. *)
Theorem webhook_endpoints_answer_200_or_500 :
  forall (env : Env) (settings : Config.Settings) (tc : TelegramClient.t)
         (gc : GreenApiClient.t) (wh : WebhookHandler.t)
         (th : option TelegramWebhookHandler.t) (request : Main.Request) (w : World),
    (exists response w',
       Main.webhook_endpoint env settings tc wh request w = (Ret response, w')
       /\ (Main.status_code response = 200%Z \/ Main.status_code response = 500%Z))
    /\ (exists response w',
          Main.telegram_webhook_endpoint env settings gc th request w
          = (Ret response, w')
          /\ (Main.status_code response = 200%Z \/ Main.status_code response = 500%Z)).
Proof.
  intros env settings tc gc wh th request w.
  split.
  - unfold Main.webhook_endpoint.
    apply (endpoint_answers
             (P := fun r => Main.status_code r = 200%Z \/ Main.status_code r = 500%Z)).
    + destruct (negb (Config.enable_max_to_telegram settings)).
      * apply returns_ret. now left.
      * repeat (apply returns_bind; intro). apply returns_ret. now left.
    + intros e. now right.
  - unfold Main.telegram_webhook_endpoint.
    apply (endpoint_answers
             (P := fun r => Main.status_code r = 200%Z \/ Main.status_code r = 500%Z)).
    + destruct (negb (Config.enable_telegram_to_max settings)).
      * apply returns_ret. now left.
      * repeat (apply returns_bind; intro).
        destruct th; [apply returns_bind; intro|]; apply returns_ret;
          [now left | now right].
    + intros e. now right.
Qed.

(** X13.  A request to an endpoint whose direction is disabled is answered
    200 with status [disabled] before anything else is looked at: whether or
    not it carries the secret, whether or not its body decodes, and without
    any call. *)
Theorem disabled_direction_answers_before_authentication :
  forall (env : Env) (settings : Config.Settings) (tc : TelegramClient.t)
         (gc : GreenApiClient.t) (wh : WebhookHandler.t)
         (th : option TelegramWebhookHandler.t) (request : Main.Request) (w : World),
    (Config.enable_max_to_telegram settings = false ->
     exists response,
       Main.webhook_endpoint env settings tc wh request w = (Ret response, w)
       /\ Main.status_code response = 200%Z
       /\ status_of (Main.content response) = Some (JStr "disabled"))
    /\ (Config.enable_telegram_to_max settings = false ->
        exists response,
          Main.telegram_webhook_endpoint env settings gc th request w
          = (Ret response, w)
          /\ Main.status_code response = 200%Z
          /\ status_of (Main.content response) = Some (JStr "disabled")).
Proof.
  intros env settings tc gc wh th request w. split; intros H;
    unfold Main.webhook_endpoint, Main.telegram_webhook_endpoint, try_except;
    rewrite H; simpl; eexists; repeat split.
Qed.

Lemma disabled_direction_answers_before_authentication_witness :
  exists response,
    Main.webhook_endpoint Sample.env Sample.telegram_to_max Sample.telegram_client
      Sample.webhook_handler Sample.request_without_header Sample.world
    = (Ret response, Sample.world)
    /\ Main.status_code response = 200%Z
    /\ status_of (Main.content response) = Some (JStr "disabled").
Proof.
  apply (proj1 (disabled_direction_answers_before_authentication
                  Sample.env Sample.telegram_to_max Sample.telegram_client
                  Sample.green_api_client Sample.webhook_handler None
                  Sample.request_without_header Sample.world)).
  reflexivity.
Defined.





(* ================================================================= *)
(** * Further properties: configuration and filters *)

Lemma all_nonempty_cons (x : string) (l : list string) :
  Config.all_nonempty (x :: l) = true <-> x <> "" /\ Config.all_nonempty l = true.
Proof.
  unfold Config.all_nonempty. simpl. rewrite andb_true_iff, negb_true_iff.
  now rewrite String.eqb_neq.
Qed.

(** X15.  [validate_settings] returns [True] exactly when one direction is
    enabled and the credentials it needs are set: the instance id, the API
    token and the bot token, the channel for Max to Telegram, the target
    chat for Telegram to Max.  A missing credential gives [False], not an
    exception. *)
Theorem validate_settings_accepts_iff_credentials_set :
  forall s : Config.Settings,
    Config.validate_settings s = inr true
    <-> (Config.enable_max_to_telegram s <> Config.enable_telegram_to_max s
         /\ Config.max_instance_id s <> ""
         /\ Config.max_api_token s <> ""
         /\ Config.telegram_bot_token s <> ""
         /\ (Config.enable_max_to_telegram s = true -> Config.telegram_channel_id s <> "")
         /\ (Config.enable_telegram_to_max s = true -> Config.max_target_chat_id s <> "")).
Proof.
  intros s. unfold Config.validate_settings.
  destruct (Config.enable_max_to_telegram s), (Config.enable_telegram_to_max s);
    cbn [andb negb List.app].
  - split; [discriminate | intros [H _]; now contradiction H].
  - split.
    + intros H. injection H as H.
      repeat match goal with
             | E : _ && _ = true |- _ => apply andb_true_iff in E; destruct E
             | E : negb (_ =? _) = true |- _ =>
                 apply negb_true_iff, String.eqb_neq in E
             end.
      repeat split; try assumption; try discriminate; intros _; assumption.
    + intros (_ & H1 & H2 & H3 & H4 & _). f_equal.
      repeat (apply all_nonempty_cons; split; [auto|]). reflexivity.
  - split.
    + intros H. injection H as H.
      repeat match goal with
             | E : _ && _ = true |- _ => apply andb_true_iff in E; destruct E
             | E : negb (_ =? _) = true |- _ =>
                 apply negb_true_iff, String.eqb_neq in E
             end.
      repeat split; try assumption; try discriminate; intros _; assumption.
    + intros (_ & H1 & H2 & H3 & _ & H5). f_equal.
      repeat (apply all_nonempty_cons; split; [auto|]). reflexivity.
  - split; [discriminate | intros [H _]; now contradiction H].
Qed.

(** X16.  The chat filters: with no filter, or an empty one, every chat is
    let through.  Otherwise the Max handler lets through exactly the chat
    identifier that is the filter as a string, and the Telegram handler
    exactly the chat whose number, written in decimal, is the filter. *)
Theorem should_process_message_iff :
  forall (wh : WebhookHandler.t) (th : TelegramWebhookHandler.t)
         (chat : value) (chat_id : Z),
    (WebhookHandler.should_process_message wh chat = true
     <-> (truthy_opt (WebhookHandler.target_chat_id wh) = false
          \/ exists filter, WebhookHandler.target_chat_id wh = Some filter
                            /\ chat = JStr filter))
    /\ (TelegramWebhookHandler.should_process_message th chat_id = true
        <-> (truthy_opt (TelegramWebhookHandler.target_chat_id th) = false
             \/ TelegramWebhookHandler.target_chat_id th = Some (str_of_int chat_id))).
Proof.
  intros wh th chat chat_id. split.
  - unfold WebhookHandler.should_process_message.
    destruct (WebhookHandler.target_chat_id wh) as [filter|]; simpl.
    + destruct (filter =? "") eqn:E; simpl.
      * split; [now left | reflexivity].
      * unfold or_default; simpl. rewrite E; simpl. split.
        -- intros H. right. exists filter. split; [reflexivity|].
           destruct chat; try discriminate H. simpl in H.
           apply String.eqb_eq in H. now subst.
        -- intros [H | (f & Hf & Hc)]; [discriminate H|].
           injection Hf as <-. subst chat. simpl. apply String.eqb_refl.
    + split; [now left | reflexivity].
  - unfold TelegramWebhookHandler.should_process_message.
    destruct (TelegramWebhookHandler.target_chat_id th) as [filter|]; simpl.
    + destruct (filter =? "") eqn:E; simpl.
      * split; [now left | reflexivity].
      * unfold or_default; simpl. rewrite E; simpl. split.
        -- intros H. right. apply String.eqb_eq in H. now rewrite H.
        -- intros [H | H]; [discriminate H|].
           injection H as <-. apply String.eqb_refl.
    + split; [now left | reflexivity].
Qed.

(* ================================================================= *)
(** * Further properties: the Max webhook handler *)

(** The run of [send_text_message] on a text that is a string: one call,
    [True] when the Bot API accepts it, [False] on a [TelegramAPIError],
    and any other exception is let through. *)
Lemma send_text_message_run :
  forall env tc (text : string) sender_name sender_phone w,
    TelegramClient.send_text_message env tc (JStr text) sender_name sender_phone w
    = (match bot_api env (message_call env tc (JStr text) sender_name sender_phone) with
       | None => Ret true
       | Some e => if is_TelegramAPIError e then Ret false else Raise e
       end,
       after_call (message_call env tc (JStr text) sender_name sender_phone) w).
Proof.
  intros. unfold TelegramClient.send_text_message, TelegramClient.bot_call,
    try_except, bind, record_call, message_call, after_call. simpl.
  destruct (bot_api env _) as [e|]; simpl; [|reflexivity].
  destruct (is_TelegramAPIError e); reflexivity.
Qed.

(** As [handle_incoming_message_processed], with the sender the handlers
    are given. *)
Lemma handle_incoming_message_dispatches :
  forall env tc self fields chat w,
    green_api_payload (JObj fields) = true ->
    in_strs (field "typeWebhook" JNull (JObj fields))
            WebhookHandler.allowed_webhook_types = true ->
    source_chat_id (JObj fields) = Some chat ->
    WebhookHandler.should_process_message self chat = true ->
    WebhookHandler.handle_incoming_message env tc self (JObj fields) w
    = try_except
        (WebhookHandler.process_by_type env tc
           (message_type (JObj fields))
           (field "messageData" (JObj []) (JObj fields))
           (sender_name_of (JObj fields)) (sender_phone_of (JObj fields)))
        any_Exception (fun e => ret (status_error e)) w.
Proof.
  intros env tc self fields chat w Hwf Hon Hsrc Hyes.
  destruct (green_api_payload_parts _ Hwf) as (_ & _ & Hsender & Hmd & _).
  destruct (message_data_is_object _ Hmd) as [md Emd].
  unfold source_chat_id in Hsrc. unfold sender_name_of, sender_phone_of.
  destruct (field "senderData" (JObj []) (JObj fields)) as [| | | | |sd] eqn:Esd;
    try discriminate Hsrc.
  injection Hsrc as Hsrc.
  assert (Hs : exists s, field "sender" (JStr "") (JObj sd) = JStr s).
  { unfold key, field in *.
    destruct (assoc "sender" sd) as [[| | |s| |]|]; try discriminate Hsender; eauto. }
  destruct Hs as [s Es]. rewrite Es.
  unfold WebhookHandler.handle_incoming_message.
  apply try_except_same.
  rewrite (bind_Ret _ _ w w _ (get_object _ _ _ _)).
  rewrite Hon; cbn [negb].
  do 3 rewrite (bind_Ret _ _ w w _ (get_object _ _ _ _)).
  rewrite Esd.
  rewrite (bind_Ret _ _ w w _ (get_object _ _ _ _)).
  assert (Hor : or_else (field "chatId" JNull (JObj sd)) (get (JObj sd) "sender" JNull) w
                = (Ret chat, w)).
  { rewrite <- Hsrc. unfold or_else, or_, field.
    destruct (truthy _); reflexivity. }
  rewrite (bind_Ret _ _ w w _ Hor).
  rewrite Hyes; cbn [negb].
  rewrite (bind_Ret _ _ w w _ (get_object _ _ _ _)).
  assert (Hname : or_else (field "senderName" JNull (JObj sd)) (get (JObj sd) "name" JNull) w
                  = (Ret (or_ (field "senderName" JNull (JObj sd))
                              (field "name" JNull (JObj sd))), w)).
  { unfold or_else, or_, field. destruct (truthy _); reflexivity. }
  rewrite (bind_Ret _ _ w w _ Hname).
  rewrite (bind_Ret _ _ w w _ (get_object _ _ _ _)).
  rewrite Es.
  rewrite (bind_Ret _ _ w w (JStr (replace "@c.us" "" s)) eq_refl).
  rewrite Emd.
  rewrite (bind_Ret _ _ w w _ (get_object _ _ _ _)).
  unfold message_type. rewrite Emd. reflexivity.
Qed.

(** X17.  A well-formed, allow-listed [textMessage] event with a non-empty
    text, from a chat the filter lets through, makes exactly one call: the
    send of the text, with the sender header, to the channel.  The answer
    is [success] when the Bot API accepts the message and also when it
    raises a [TelegramAPIError]; it is [error] when the send raises
    anything else. *)
Theorem max_text_message_relayed :
  forall (env : Env) (tc : TelegramClient.t) (self : WebhookHandler.t)
         (payload chat : value) (text : string) (w : World),
    green_api_payload payload = true ->
    in_strs (field "typeWebhook" JNull payload)
            WebhookHandler.allowed_webhook_types = true ->
    eq_str (message_type payload) "textMessage" = true ->
    text_body payload = JStr text ->
    text <> "" ->
    source_chat_id payload = Some chat ->
    WebhookHandler.should_process_message self chat = true ->
    let sent := message_call env tc (JStr text)
                  (sender_name_of payload) (sender_phone_of payload) in
    WebhookHandler.handle_incoming_message env tc self payload w
    = (Ret (status_after (bot_api env sent)), after_call sent w).
Proof.
  intros env tc self payload chat text w Hwf Hon Htype Htext Hne Hsrc Hyes sent.
  destruct payload as [| | | | |fields]; try discriminate Hsrc.
  rewrite (handle_incoming_message_dispatches env tc self fields chat w
             Hwf Hon Hsrc Hyes).
  destruct (green_api_payload_parts _ Hwf) as (_ & _ & _ & Hmd & Htmd).
  destruct (message_data_is_object _ Hmd) as [md Emd].
  unfold WebhookHandler.process_by_type. rewrite Htype.
  unfold text_body in Htext. rewrite Emd in *.
  assert (Hd : exists d, field "textMessageData" (JObj []) (JObj md) = JObj d).
  { unfold key, field in *.
    destruct (assoc "textMessageData" md) as [[| | | | |d]|];
      try discriminate Htmd; eauto. }
  destruct Hd as [d Ed]. rewrite Ed in Htext.
  assert (Hh : WebhookHandler._handle_text_message env tc (JObj md)
                 (sender_name_of (JObj fields)) (sender_phone_of (JObj fields)) w
               = (match bot_api env sent with
                  | None => Ret tt
                  | Some e => if is_TelegramAPIError e then Ret tt else Raise e
                  end, after_call sent w)).
  { unfold WebhookHandler._handle_text_message.
    rewrite (bind_Ret _ _ w w _ (get_object _ _ _ _)). rewrite Ed.
    rewrite (bind_Ret _ _ w w _ (get_object _ _ _ _)). rewrite Htext.
    apply String.eqb_neq in Hne. cbn [truthy]. rewrite Hne. cbn [negb].
    unfold bind. rewrite send_text_message_run. fold sent.
    destruct (bot_api env sent) as [e|]; [|reflexivity].
    destruct (is_TelegramAPIError e); reflexivity. }
  unfold try_except, bind. rewrite Hh. unfold status_after.
  destruct (bot_api env sent) as [e|]; [|reflexivity].
  destruct (is_TelegramAPIError e); reflexivity.
Qed.

(** X18.  An image or a video whose attachment is a plain URL string, in
    [fileMessageData] or in [downloadUrl], is relayed from that URL, and
    without the caption of the message: the default caption is used. *)
Theorem plain_url_image_relayed_without_caption :
  forall (env : Env) (tc : TelegramClient.t) (md : list (string * value))
         (u : string) (sender_name sender_phone : value) (w : World),
    or_ (field "fileMessageData" JNull (JObj md)) (field "downloadUrl" JNull (JObj md))
    = JStr u ->
    u <> "" ->
    WebhookHandler._handle_image_message env tc (JObj md) sender_name sender_phone w
    = (TelegramClient.send_photo env tc (JStr u) JNull sender_name sender_phone ;;;
       ret tt) w
    /\ WebhookHandler._handle_video_message env tc (JObj md) sender_name sender_phone w
       = (TelegramClient.send_video env tc (JStr u) JNull sender_name sender_phone ;;;
          ret tt) w.
Proof.
  intros env tc md u sender_name sender_phone w Hurl Hne.
  assert (Hdata : or_else (field "fileMessageData" JNull (JObj md))
                    (get (JObj md) "downloadUrl" JNull) w = (Ret (JStr u), w)).
  { rewrite <- Hurl. unfold or_else, or_.
    destruct (truthy (field "fileMessageData" JNull (JObj md))); reflexivity. }
  apply String.eqb_neq in Hne.
  split;
    unfold WebhookHandler._handle_image_message, WebhookHandler._handle_video_message;
    rewrite (bind_Ret _ _ w w _ (get_object _ _ _ _));
    rewrite (bind_Ret _ _ w w _ Hdata);
    cbn [is_dict]; rewrite bind_ret; cbn [truthy]; rewrite Hne; reflexivity.
Qed.

Lemma plain_url_image_relayed_without_caption_witness :
  WebhookHandler._handle_image_message Sample.env Sample.telegram_client
    (JObj [("typeMessage", JStr "imageMessage");
           ("downloadUrl", JStr "http://x/p.jpg");
           ("caption", JStr "look")])
    JNull JNull Sample.world
  = (TelegramClient.send_photo Sample.env Sample.telegram_client
       (JStr "http://x/p.jpg") JNull JNull JNull ;;; ret tt) Sample.world.
Proof.
  apply (plain_url_image_relayed_without_caption
           Sample.env Sample.telegram_client
           [("typeMessage", JStr "imageMessage");
            ("downloadUrl", JStr "http://x/p.jpg");
            ("caption", JStr "look")]
           "http://x/p.jpg" JNull JNull Sample.world eq_refl).
  discriminate.
Defined.

(** X19.  A document, an audio or a voice message is relayed only from an
    object in [fileMessageData].  When that field is missing or empty
    nothing is sent and nothing is raised, whatever [downloadUrl] says; when
    it is a non-empty string the handler raises an [AttributeError] before
    any call. *)
Theorem document_needs_file_message_data :
  forall (env : Env) (tc : TelegramClient.t) (md : list (string * value))
         (sender_name sender_phone : value) (w : World),
    (truthy (field "fileMessageData" JNull (JObj md)) = false ->
     WebhookHandler._handle_document_message env tc (JObj md) sender_name sender_phone w
     = (Ret tt, w)
     /\ WebhookHandler._handle_audio_message env tc (JObj md) sender_name sender_phone w
        = (Ret tt, w)
     /\ WebhookHandler._handle_voice_message env tc (JObj md) sender_name sender_phone w
        = (Ret tt, w))
    /\ (forall u,
          field "fileMessageData" JNull (JObj md) = JStr u ->
          u <> "" ->
          let e := Exn AttributeError "'str' object has no attribute 'get'" in
          WebhookHandler._handle_document_message env tc (JObj md)
            sender_name sender_phone w = (Raise e, w)
          /\ WebhookHandler._handle_audio_message env tc (JObj md)
               sender_name sender_phone w = (Raise e, w)
          /\ WebhookHandler._handle_voice_message env tc (JObj md)
               sender_name sender_phone w = (Raise e, w)).
Proof.
  intros env tc md sender_name sender_phone w. split.
  - intros Hnone.
    unfold WebhookHandler._handle_document_message,
      WebhookHandler._handle_audio_message, WebhookHandler._handle_voice_message.
    repeat split;
      rewrite (bind_Ret _ _ w w _ (get_object _ _ _ _));
      unfold or_; rewrite Hnone; reflexivity.
  - intros u Hstr Hne e. apply String.eqb_neq in Hne.
    unfold WebhookHandler._handle_document_message,
      WebhookHandler._handle_audio_message, WebhookHandler._handle_voice_message.
    repeat split;
      rewrite (bind_Ret _ _ w w _ (get_object _ _ _ _));
      rewrite Hstr; unfold or_; cbn [truthy]; rewrite Hne; reflexivity.
Qed.

Lemma document_needs_file_message_data_witness :
  WebhookHandler._handle_document_message Sample.env Sample.telegram_client
    (JObj [("typeMessage", JStr "documentMessage");
           ("downloadUrl", JStr "http://x/doc.pdf")])
    JNull JNull Sample.world
  = (Ret tt, Sample.world)
  /\ WebhookHandler._handle_document_message Sample.env Sample.telegram_client
       (JObj [("typeMessage", JStr "documentMessage");
              ("fileMessageData", JStr "http://x/doc.pdf")])
       JNull JNull Sample.world
     = (Raise (Exn AttributeError "'str' object has no attribute 'get'"), Sample.world).
Proof.
  split.
  - apply (proj1 (document_needs_file_message_data
                    Sample.env Sample.telegram_client
                    [("typeMessage", JStr "documentMessage");
                     ("downloadUrl", JStr "http://x/doc.pdf")]
                    JNull JNull Sample.world)).
    reflexivity.
  - apply (proj2 (document_needs_file_message_data
                    Sample.env Sample.telegram_client
                    [("typeMessage", JStr "documentMessage");
                     ("fileMessageData", JStr "http://x/doc.pdf")]
                    JNull JNull Sample.world) "http://x/doc.pdf" eq_refl).
    discriminate.
Defined.

(** X20.  A payload that is not a JSON object is answered [error], with the
    text of the [AttributeError], and an object without [typeWebhook] is
    answered [ignored]; neither makes any call. *)
Theorem malformed_payload_is_answered_without_calls :
  forall (env : Env) (tc : TelegramClient.t) (self : WebhookHandler.t)
         (payload : value) (w : World),
    (is_dict payload = false ->
     WebhookHandler.handle_incoming_message env tc self payload w
     = (Ret (JObj [("status", JStr "error");
                   ("message",
                    JStr ("'" ++ type_name payload
                          ++ "' object has no attribute 'get'"))]), w))
    /\ (is_dict payload = true ->
        key "typeWebhook" payload = None ->
        WebhookHandler.handle_incoming_message env tc self payload w
        = (Ret (status_ignored "not_a_message"), w)).
Proof.
  intros env tc self payload w. split.
  - intros H. destruct payload; try discriminate H; reflexivity.
  - intros H Hkey. destruct payload as [| | | | |fields]; try discriminate H.
    apply handle_incoming_message_off_list.
    unfold field. simpl in Hkey. now rewrite Hkey.
Qed.

Lemma malformed_payload_is_answered_without_calls_witness :
  WebhookHandler.handle_incoming_message Sample.env Sample.telegram_client
    Sample.webhook_handler (JArr []) Sample.world
  = (Ret (JObj [("status", JStr "error");
                ("message", JStr "'list' object has no attribute 'get'")]),
     Sample.world)
  /\ WebhookHandler.handle_incoming_message Sample.env Sample.telegram_client
       Sample.webhook_handler (JObj []) Sample.world
     = (Ret (status_ignored "not_a_message"), Sample.world).
Proof.
  split.
  - apply (proj1 (malformed_payload_is_answered_without_calls
                    Sample.env Sample.telegram_client Sample.webhook_handler
                    (JArr []) Sample.world)).
    reflexivity.
  - apply (proj2 (malformed_payload_is_answered_without_calls
                    Sample.env Sample.telegram_client Sample.webhook_handler
                    (JObj []) Sample.world));
      reflexivity.
Defined.



(* ================================================================= *)
(** * Further properties: sample runs *)

Lemma telegram_photo_relayed_from_last_size_witness :
  let run := TelegramWebhookHandler._handle_photo_message Sample.env
               Sample.green_api_client Sample.telegram_webhook_handler
               Sample.photo_message Sample.world in
  result_of run = Ret tt
  /\ calls (world_of run)
     = [BotGetFile "large";
        file_post Sample.green_api_client "-69020002426896"
          "https://api.telegram.org/file/bot42:bot/documents/file_0"
          "photo.jpg"
          (String.append "📨 *From Telegram:* 👤 Alice | @alice99"
             (String.append LF (String.append LF "Sunset")))].
Proof.
  exact (telegram_photo_relayed_from_last_size
           Sample.env Sample.green_api_client Sample.telegram_webhook_handler
           Sample.photo_message [Aiogram.mkFile "small" None]
           (Aiogram.mkFile "large" None) Sample.world eq_refl eq_refl).
Defined.


Lemma max_text_message_relayed_witness :
  WebhookHandler.handle_incoming_message Sample.env_bot_raises Sample.telegram_client
    Sample.webhook_handler
    (match Main.json Sample.authorised_request with inr p => p | inl _ => JNull end)
    Sample.world
  = (Ret status_success,
     after_call (BotSendMessage "-1001"
                   (JStr (String.append "ðŸ‘¤ <b>Bob</b>"
                            (String.append LF (String.append LF "Hello"))))
                   "HTML")
       Sample.world).
Proof.
  apply (max_text_message_relayed
           Sample.env_bot_raises Sample.telegram_client Sample.webhook_handler
           (match Main.json Sample.authorised_request with inr p => p | inl _ => JNull end)
           (JStr "mychat") "Hello" Sample.world);
    try reflexivity.
  discriminate.
Defined.
